(** * ssp_esri_pydantic: schema synthesis for geodatabase tables

    A shallow embedding of [src/ssp_esri_pydantic.py].  The module builds a
    pydantic validator from the metadata of a geodatabase table: its fields,
    the domains of its workspace and its subtypes.

    Python dictionaries whose iteration order the code observes
    ([codedValues], [FieldValues], the subtype table) are association lists;
    [create_model_params], which is only written by key, is a [gmap].
    Exceptions and the records sent to [logging] are threaded through the
    [Run] monad below.

    What [arcpy] and [os.path] return is an input ([Runtime]).  The calls
    into pydantic and [typing] ([Field], [create_model], [Literal],
    [Optional], [Union], [TypeAdapter]) are data constructors that record
    their arguments: what pydantic rejects when it builds a model is not
    part of this development. *)

From stdpp Require Import base option list strings gmap fin_maps.
From Stdlib Require Import ZArith Ascii.

Local Open Scope string_scope.
Local Open Scope list_scope.
Local Set Warnings "-clear-no-such-hyp".

(** ** Python values that occur in the metadata *)

(** A number of the metadata or of the module's tables: an integer, a
    float given by a decimal literal [mantissa * 10 ^ exponent] ([-3.4e38]
    is [NFloat (-34) 37]), or one of the two infinities, which is what a
    float literal beyond the range of a double evaluates to ([1.8e308] is
    [inf], [-2.2e308] is [-inf]). *)
Inductive Number : Type :=
  | NInt (z : Z)
  | NFloat (mantissa exponent : Z)
  | NPosInf
  | NNegInf.

(** The codes of a coded-value domain and the codes of subtypes. *)
Inductive Code : Type :=
  | CodeNum (n : Number)
  | CodeStr (s : string).

(** The exceptions the module can meet; all of them derive from
    [Exception]. *)
Inductive PyExn : Type :=
  | KeyError (key : string)
  | AttributeError (msg : string)
  | UnboundLocalError (variable : string)
  | ExternalError (msg : string).

Inductive LogRecord : Type :=
  | LogWarning (msg : string)
  | LogError (ex : PyExn).

(** ** Runs: an outcome (exception or value) and the log records emitted *)

Record Run (A : Type) : Type := MkRun {
  outcome : PyExn + A;
  logged : list LogRecord
}.
Arguments MkRun {A} _ _.
Arguments outcome {A} _.
Arguments logged {A} _.

Definition raise {A : Type} (ex : PyExn) : Run A := MkRun (inl ex) [].

Definition run_bind {A B : Type} (f : A → Run B) (m : Run A) : Run B :=
  match outcome m with
  | inl ex => MkRun (inl ex) (logged m)
  | inr a => let r := f a in MkRun (outcome r) (logged m ++ logged r)
  end.

#[global] Instance run_ret : MRet Run := λ A a, MkRun (inr a) [].
#[global] Instance run_mbind : MBind Run := λ A B f m, run_bind f m.

Definition logging_warning (msg : string) : Run unit :=
  MkRun (inr tt) [LogWarning msg].

(** The result of a call into an external library. *)
Definition call {A : Type} (r : PyExn + A) : Run A := MkRun r [].

(** [d[key]] on a dictionary with string keys. *)
Definition getitem {V : Type} (d : gmap string V) (key : string) : Run V :=
  match d !! key with
  | Some v => mret v
  | None => raise (KeyError key)
  end.

(** Reading a local variable that an earlier loop may have left unassigned. *)
Definition read_local {A : Type} (variable : string) (v : option A) : Run A :=
  match v with
  | Some a => mret a
  | None => raise (UnboundLocalError variable)
  end.

(** [for x in items: s = body(x, s)], stopping at the first exception. *)
Fixpoint for_loop {A S : Type} (body : A → S → Run S) (items : list A) (s : S)
  : Run S :=
  match items with
  | [] => mret s
  | x :: rest => s' ← body x s; for_loop body rest s'
  end.

(** ** The metadata objects *)

Module Domain.
(** The attributes of [_Domain] (and of the objects of
    [arcpy.da.ListDomains] it mimics). *)
Record t : Type := Build {
  codedValues : option (list (Code * string));
  description : string;
  domainType : string;
  mergePolicy : string;
  name : string;
  owner : option string;
  range : option Number * option Number;
  splitPolicy : string;
  type : string
}.
End Domain.

Module ArcpyField.
(** The attributes of an [arcpy.Field] the module reads. *)
Record t : Type := Build {
  name : string;
  type : string;
  length : option Z;
  editable : bool;
  isNullable : bool;
  domain : string
}.
End ArcpyField.

(** The dictionary of [arcpy.da.Describe]; [shapeFieldName] is [None] when
    the key is not in the dictionary. *)
Record Describe : Type := {
  shapeFieldName : option string;
  subtypeFieldName : string;
  fields : list ArcpyField.t
}.

(** One value of [arcpy.da.ListSubtypes]: [FieldValues] maps a field name to
    the pair (default value, domain or [None]). *)
Record SubtypeDict : Type := {
  Name : string;
  FieldValues : list (string * (option Code * option Domain.t))
}.

(** What the module reads from its surroundings. *)
Record Runtime : Type := {
  os_path_basename : string → string;
  os_path_dirname : string → string;
  casefold : string → string;
  arcpy_da_ListDomains : string → PyExn + list Domain.t;
  arcpy_da_Describe : string → PyExn + Describe;
  arcpy_da_ListSubtypes : string → PyExn + list (Code * SubtypeDict)
}.

(** ** The pydantic side *)

Inductive PyType : Type :=
  | Base64Bytes
  | datetime
  | float
  | GEOMETRY
  | UUID
  | int
  | str.

Inductive Annotation : Type :=
  | Prim (ty : PyType)
  | Literal (values : list Code)
  | Optional (a : Annotation)
  | Any.

(** [lambda: None] is the only default factory of the module. *)
Inductive DefaultFactory : Type := lambda_None.

(** [Field(default_factory=..., max_length=..., ge=..., le=...)]; an argument
    that is left out is [None]. *)
Record FieldInfo : Type := Field {
  fi_default_factory : option DefaultFactory;
  fi_max_length : option Z;
  fi_ge : option Number;
  fi_le : option Number
}.

(** The second component of a field definition is a [FieldInfo] or a plain
    default value. *)
Inductive FieldDefault : Type :=
  | Info (fi : FieldInfo)
  | DefaultValue (v : Code).

Definition pydantic_tuple : Type := Annotation * FieldDefault.

(** [create_model(model_name, **create_model_params, __base__=_NoExtras)]. *)
Record Model : Type := create_model {
  model_name : string;
  model_fields : gmap string pydantic_tuple;
  extra_forbid : bool
}.

Inductive TypeAdapter : Type :=
  | AdapterOfModel (m : Model)
  | AdapterOfUnion (subtype_models : list Model) (discriminator : string).

(** *** How pydantic reads a field definition *)

(** A field is required when it has neither a default nor a default
    factory. *)
Definition is_required (t : pydantic_tuple) : bool :=
  match t.2 with
  | Info fi => bool_decide (fi_default_factory fi = None)
  | DefaultValue _ => false
  end.

(** The default the field takes when the record omits it: [None] for no
    default, [Some None] for Python's [None], [Some (Some c)] for [c]. *)
Definition default_of (t : pydantic_tuple) : option (option Code) :=
  match t.2 with
  | Info fi =>
      match fi_default_factory fi with
      | Some lambda_None => Some None
      | None => None
      end
  | DefaultValue v => Some (Some v)
  end.

(** Whether [None] validates against the annotation. *)
Definition accepts_None (a : Annotation) : bool :=
  match a with
  | Prim _ => false
  | Literal _ => false
  | Optional _ => true
  | Any => true
  end.

Definition max_length_of (t : pydantic_tuple) : option Z :=
  match t.2 with
  | Info fi => fi_max_length fi
  | DefaultValue _ => None
  end.

Definition bounds_of (t : pydantic_tuple) : option Number * option Number :=
  match t.2 with
  | Info fi => (fi_ge fi, fi_le fi)
  | DefaultValue _ => (None, None)
  end.

(** The annotation under [Optional]. *)
Definition underlying (a : Annotation) : Annotation :=
  match a with
  | Optional b => b
  | _ => a
  end.

Definition literal_set (t : pydantic_tuple) : option (list Code) :=
  match underlying t.1 with
  | Literal values => Some values
  | _ => None
  end.

(** ** The module's tables *)

Definition field_type_to_pydantic_dict : gmap string PyType :=
  list_to_map [
    ("Blob", Base64Bytes);
    ("Date", datetime);
    ("Double", float);
    ("Geometry", GEOMETRY);
    ("GlobalID", UUID);
    ("Guid", UUID);
    ("Integer", int);
    ("SmallInteger", int);
    ("Long", int);
    ("Short", int);
    ("OID", int);
    ("Raster", Base64Bytes);
    ("Single", float);
    ("String", str);
    ("Text", str);
    ("Float", float)
  ].

Definition field_type_min_max : gmap string (Number * Number) :=
  list_to_map [
    ("SmallInteger", (NInt (-32768), NInt 32767));
    ("Short", (NInt (-32768), NInt 32767));
    ("SHORT", (NInt (-32768), NInt 32767));
    ("Integer", (NInt (-2147483648), NInt 2147483647));
    ("Long", (NInt (-2147483648), NInt 2147483647));
    ("LONG", (NInt (-2147483648), NInt 2147483647));
    ("Single", (NFloat (-34) 37, NFloat 12 37));
    ("SINGLE", (NFloat (-34) 37, NFloat 12 37));
    ("Float", (NFloat (-34) 37, NFloat 12 37));
    ("FLOAT", (NFloat (-34) 37, NFloat 12 37));
    ("Double", (NNegInf, NPosInf));
    ("DOUBLE", (NNegInf, NPosInf));
    ("BigInteger", (NInt (-9007199254740991), NInt 9007199254740991));
    ("BIGINTEGER", (NInt (-9007199254740991), NInt 9007199254740991))
  ].

(** ** make_domain_tuple *)

(** The search loop at the head of [make_domain_tuple]: the first domain of
    the list with the name, [None] when the loop ends without a [break]. *)
Fixpoint find_domain (domains_list : list Domain.t) (domain_name : string)
  : option Domain.t :=
  match domains_list with
  | [] => None
  | domain :: rest =>
      if decide (Domain.name domain = domain_name) then Some domain
      else find_domain rest domain_name
  end.

Definition make_domain_tuple (domains_list : list Domain.t)
    (domain_name : string) (nullable insert_explicit : bool)
    (max_length : option Z) : Run (option pydantic_tuple) :=
  match find_domain domains_list domain_name with
  | None =>
      _ ← logging_warning ("Could not find domain named :" +:+ domain_name);
      mret None
  | Some the_domain =>
      if decide (Domain.domainType the_domain = "CodedValue") then
        match Domain.codedValues the_domain with
        | None => raise (AttributeError "keys")
        | Some codedValues =>
            let domain_codes := codedValues.*1 in
            if decide (length domain_codes = 0) then mret None
            else if negb nullable && insert_explicit then
              match max_length with
              | None =>
                  mret (Some (Literal domain_codes,
                              Info (Field None None None None)))
              | Some _ =>
                  mret (Some (Literal domain_codes,
                              Info (Field None max_length None None)))
              end
            else
              match max_length with
              | None =>
                  mret (Some (Optional (Literal domain_codes),
                              Info (Field (Some lambda_None) None None None)))
              | Some _ =>
                  mret (Some (Optional (Literal domain_codes),
                              Info (Field (Some lambda_None) max_length
                                      None None)))
              end
        end
      else
        let '(min_val, max_val) := Domain.range the_domain in
        pydantic_field_type ←
          getitem field_type_to_pydantic_dict (Domain.type the_domain);
        if negb nullable && insert_explicit then
          mret (Some (Prim pydantic_field_type,
                      Info (Field None None min_val max_val)))
        else
          mret (Some (Optional (Prim pydantic_field_type),
                      Info (Field (Some lambda_None) None min_val max_val)))
  end.

(** ** make_table_adapter *)

Section make_table_adapter.

Variable rt : Runtime.

(** [shape_field_name is not None and
    field.name.casefold() == shape_field_name.casefold()]. *)
Definition is_shape_field (shape_field_name : option string)
    (field : ArcpyField.t) : bool :=
  match shape_field_name with
  | Some shape =>
      bool_decide (casefold rt (ArcpyField.name field) = casefold rt shape)
  | None => false
  end.

(** The entry written for the shape field before the loop over the fields:
    [(Any, Field())]. *)
Definition shape_tuple : pydantic_tuple :=
  (Any, Info (Field None None None None)).

Definition shape_params (shape_field_name : option string)
  : gmap string pydantic_tuple :=
  match shape_field_name with
  | Some shape => <[shape := shape_tuple]> ∅
  | None => ∅
  end.

(** [field.length] for a ["String"] field, else [None]. *)
Definition max_length_for (field : ArcpyField.t) : option Z :=
  if decide (ArcpyField.type field = "String") then ArcpyField.length field
  else None.

(** [ge = None; le = None; if field.type in field_type_min_max: ge, le =
    field_type_min_max[field.type]]. *)
Definition static_bounds (field : ArcpyField.t)
  : option Number * option Number :=
  match field_type_min_max !! ArcpyField.type field with
  | Some (ge, le) => (Some ge, Some le)
  | None => (None, None)
  end.

(** The last branch of both loops: the tuple derived from the field's type,
    with the static bounds of [field_type_min_max]. *)
Definition type_tuple (field : ArcpyField.t) (pydantic_field_type : PyType)
    (max_length : option Z) (insert_explicit : bool) : pydantic_tuple :=
  let '(ge, le) := static_bounds field in
  if negb (ArcpyField.isNullable field) && insert_explicit then
    (Prim pydantic_field_type, Info (Field None max_length ge le))
  else
    (Optional (Prim pydantic_field_type),
     Info (Field (Some lambda_None) max_length ge le)).

(** [pydantic_tuple = None; if domain_name is not None: pydantic_tuple =
    make_domain_tuple(...)]. *)
Definition domain_tuple (domains_list : list Domain.t)
    (domain_name : option string) (field : ArcpyField.t)
    (insert_explicit : bool) (max_length : option Z)
  : Run (option pydantic_tuple) :=
  match domain_name with
  | Some domain_name =>
      make_domain_tuple domains_list domain_name
        (ArcpyField.isNullable field) insert_explicit max_length
  | None => mret None
  end.

(** The tuple a subtype pins its discriminator field to:
    [(Literal[subtype_code], subtype_code)]. *)
Definition pinned_tuple (subtype_code : Code) : pydantic_tuple :=
  (Literal [subtype_code], DefaultValue subtype_code).

(** The domain name the subtype loop looks up. *)
Definition subtype_domain_name (subtype_domain : option Domain.t)
    (field : ArcpyField.t) : option string :=
  match subtype_domain with
  | Some d => Some (Domain.name d)
  | None =>
      if decide (ArcpyField.domain field ≠ "") then
        Some (ArcpyField.domain field)
      else None
  end.

(** The body of the loop over [st_fld_zip]: the tuple for one field of one
    subtype, [None] when the body ends in [continue]. *)
Definition subtype_field_tuple (domains_list : list Domain.t)
    (shape_field_name subtype_field_name : option string)
    (subtype_code : Code) (insert_explicit : bool)
    (st_tuple : option Code * option Domain.t) (field : ArcpyField.t)
  : Run (option pydantic_tuple) :=
  let '(subtype_default, subtype_domain) := st_tuple in
  pydantic_field_type ←
    getitem field_type_to_pydantic_dict (ArcpyField.type field);
  let max_length := max_length_for field in
  if is_shape_field shape_field_name field then mret None
  else if negb (ArcpyField.editable field) then mret None
  else
    let domain_name := subtype_domain_name subtype_domain field in
    pydantic_tuple ←
      domain_tuple domains_list domain_name field insert_explicit max_length;
    match pydantic_tuple with
    | Some t => mret (Some t)
    | None =>
        discriminator ← read_local "subtype_field_name" subtype_field_name;
        if decide (ArcpyField.name field = discriminator) then
          mret (Some (pinned_tuple subtype_code))
        else
          mret (Some (type_tuple field pydantic_field_type max_length
                        insert_explicit))
    end.

(** The domain name the flat loop looks up. *)
Definition flat_domain_name (field : ArcpyField.t) : option string :=
  if decide (ArcpyField.domain field ≠ "") then
    Some (ArcpyField.domain field)
  else None.

(** The body of the loop over [desc["fields"]] of a table without
    subtypes. *)
Definition flat_field_tuple (domains_list : list Domain.t)
    (shape_field_name : option string) (insert_explicit : bool)
    (field : ArcpyField.t) : Run (option pydantic_tuple) :=
  pydantic_field_type ←
    getitem field_type_to_pydantic_dict (ArcpyField.type field);
  let max_length := max_length_for field in
  if is_shape_field shape_field_name field then mret None
  else if negb (ArcpyField.editable field) then mret None
  else
    let domain_name := flat_domain_name field in
    pydantic_tuple ←
      domain_tuple domains_list domain_name field insert_explicit max_length;
    match pydantic_tuple with
    | Some t => mret (Some t)
    | None =>
        let max_length := max_length_for field in
        mret (Some (type_tuple field pydantic_field_type max_length
                      insert_explicit))
    end.

(** [create_model_params[field.name] = pydantic_tuple], unless the body
    ended in [continue]. *)
Definition store (field : ArcpyField.t) (t : option pydantic_tuple)
    (create_model_params : gmap string pydantic_tuple)
  : gmap string pydantic_tuple :=
  match t with
  | Some t => <[ArcpyField.name field := t]> create_model_params
  | None => create_model_params
  end.

(** [zip(subtype_dict["FieldValues"].values(), desc["fields"])]. *)
Definition st_fld_zip (subtype_dict : SubtypeDict) (desc : Describe)
  : list ((option Code * option Domain.t) * ArcpyField.t) :=
  zip (FieldValues subtype_dict).*2 (fields desc).

(** The body of the loop over [subtypes_dict.items()], up to
    [create_model]. *)
Definition subtype_model (domains_list : list Domain.t) (desc : Describe)
    (table_name : string) (subtype_field_name : option string)
    (insert_explicit : bool) (item : Code * SubtypeDict) : Run Model :=
  let '(subtype_code, subtype_dict) := item in
  let subtype_name := Name subtype_dict in
  let model_name := table_name +:+ "-" +:+ subtype_name in
  let shape_field_name := shapeFieldName desc in
  create_model_params ←
    for_loop
      (λ '(st_tuple, field) create_model_params,
         t ← subtype_field_tuple domains_list shape_field_name
               subtype_field_name subtype_code insert_explicit st_tuple
               field;
         mret (store field t create_model_params))
      (st_fld_zip subtype_dict desc)
      (shape_params shape_field_name);
  mret (create_model model_name create_model_params true).

(** The loop that binds [subtype_field_name]: the first field name that
    equals [desc["subtypeFieldName"]] up to case; the variable stays
    unassigned when there is none. *)
Fixpoint find_subtype_field (names : list string) (subtypeFieldName : string)
  : option string :=
  match names with
  | [] => None
  | field :: rest =>
      if decide (casefold rt field = casefold rt subtypeFieldName) then
        Some field
      else find_subtype_field rest subtypeFieldName
  end.

Definition flat_model (domains_list : list Domain.t) (desc : Describe)
    (table_name : string) (insert_explicit : bool) : Run Model :=
  let model_name := table_name in
  let shape_field_name := shapeFieldName desc in
  create_model_params ←
    for_loop
      (λ field create_model_params,
         t ← flat_field_tuple domains_list shape_field_name insert_explicit
               field;
         mret (store field t create_model_params))
      (fields desc)
      (shape_params shape_field_name);
  mret (create_model model_name create_model_params true).

(** The body of the [try] block. *)
Definition make_table_adapter_try (table_path : string)
    (insert_explicit : bool) : Run TypeAdapter :=
  let table_name := os_path_basename rt table_path in
  let db_path := os_path_dirname rt table_path in
  domains_list ← call (arcpy_da_ListDomains rt db_path);
  desc ← call (arcpy_da_Describe rt table_path);
  if decide (subtypeFieldName desc ≠ "") then
    let subtype_field_name :=
      find_subtype_field (ArcpyField.name <$> fields desc)
        (subtypeFieldName desc) in
    subtypes_dict ← call (arcpy_da_ListSubtypes rt table_path);
    subtype_models ←
      for_loop
        (λ item subtype_models,
           m ← subtype_model domains_list desc table_name
                 subtype_field_name insert_explicit item;
           mret (subtype_models ++ [m]))
        subtypes_dict [];
    discriminator ← read_local "subtype_field_name" subtype_field_name;
    mret (AdapterOfUnion subtype_models discriminator)
  else
    m ← flat_model domains_list desc table_name insert_explicit;
    mret (AdapterOfModel m).

(** [make_table_adapter]: the [try] block, and the handler that logs the
    exception and falls off the end of the function, which returns
    [None]. *)
Definition make_table_adapter (table_path : string) (insert_explicit : bool)
  : Run (option TypeAdapter) :=
  let r := make_table_adapter_try table_path insert_explicit in
  match outcome r with
  | inr table_model => MkRun (inr (Some table_model)) (logged r)
  | inl ex => MkRun (inr None) (logged r ++ [LogError ex])
  end.

End make_table_adapter.

(** ** Vocabulary of the statements *)

(** The run ends normally with value [a], having emitted exactly [log]. *)
Definition returns {A : Type} (m : Run A) (a : A) (log : list LogRecord)
  : Prop :=
  outcome m = inr a ∧ logged m = log.

(** The record schemas of an adapter: one for a flat table, one per subtype
    for a union. *)
Definition models_of (adapter : TypeAdapter) : list Model :=
  match adapter with
  | AdapterOfModel m => [m]
  | AdapterOfUnion subtype_models _ => subtype_models
  end.

(** The two outcomes of the nullability rule. *)
Definition required_mode (t : pydantic_tuple) : Prop :=
  is_required t = true ∧ accepts_None t.1 = false ∧ default_of t = None.

Definition optional_mode (t : pydantic_tuple) : Prop :=
  is_required t = false ∧ accepts_None t.1 = true ∧ default_of t = Some None.

Definition nullability_rule (nullable insert_explicit : bool)
    (t : pydantic_tuple) : Prop :=
  if negb nullable && insert_explicit then required_mode t
  else optional_mode t.

(** Where the entries of [create_model_params] come from: the shape field
    keeps the entry written before the loop, and any other key is the name of
    an editable field of the table. *)
Definition params_invariant (desc : Describe)
    (create_model_params : gmap string pydantic_tuple) : Prop :=
  (∀ shape, shapeFieldName desc = Some shape →
            create_model_params !! shape = Some shape_tuple)
  ∧ (∀ key t, create_model_params !! key = Some t →
              Some key = shapeFieldName desc
              ∨ ∃ field, field ∈ fields desc
                         ∧ ArcpyField.name field = key
                         ∧ ArcpyField.editable field = true).

(** The definition a record schema has for a field name; [None] when the
    builder raised. *)
Definition definition_in (r : Run Model) (field_name : string)
  : option (option pydantic_tuple) :=
  match outcome r with
  | inr m => Some (model_fields m !! field_name)
  | inl _ => None
  end.

(** The definitions the adapter has for a field name, one per record schema;
    [None] when [make_table_adapter] returned [None]. *)
Definition definitions_of (r : Run (option TypeAdapter)) (field_name : string)
  : option (list (option pydantic_tuple)) :=
  match outcome r with
  | inr (Some adapter) =>
      Some ((λ m, model_fields m !! field_name) <$> models_of adapter)
  | _ => None
  end.

(** A warning of [make_domain_tuple] about a name that the catalog does not
    have. *)
Definition missing_domain_warning (domains_list : list Domain.t)
    (r : LogRecord) : Prop :=
  ∃ domain_name,
    r = LogWarning ("Could not find domain named :" +:+ domain_name)
    ∧ find_domain domains_list domain_name = None.

(** The fields that get past the two [continue]s of a loop body. *)
Definition entered (rt : Runtime) (shape_field_name : option string)
    (field : ArcpyField.t) : bool :=
  negb (is_shape_field rt shape_field_name field)
  && ArcpyField.editable field.

(** The key written before the loop. *)
Definition shape_key (shape_field_name : option string) : gset string :=
  match shape_field_name with
  | Some shape => {[shape]}
  | None => ∅
  end.

(** The names of the fields of a list that a loop enters. *)
Definition entered_names (rt : Runtime) (shape_field_name : option string)
    (fs : list ArcpyField.t) : gset string :=
  list_to_set
    (ArcpyField.name
       <$> filter (λ field, entered rt shape_field_name field = true) fs).

(** The name of the domain override of an entry of [FieldValues]. *)
Definition override_name (st_tuple : option Code * option Domain.t)
  : option string :=
  Domain.name <$> st_tuple.2.

(** The same runtime with another [arcpy.da.ListSubtypes]. *)
Definition with_ListSubtypes (rt : Runtime)
    (f : string → PyExn + list (Code * SubtypeDict)) : Runtime :=
  {| os_path_basename := os_path_basename rt;
     os_path_dirname := os_path_dirname rt;
     casefold := casefold rt;
     arcpy_da_ListDomains := arcpy_da_ListDomains rt;
     arcpy_da_Describe := arcpy_da_Describe rt;
     arcpy_da_ListSubtypes := f |}.

(** ** Concrete metadata for the examples *)

Module Examples.

Definition lower (c : ascii) : ascii :=
  let n := nat_of_ascii c in
  if (65 <=? n)%nat && (n <=? 90)%nat then ascii_of_nat (n + 32) else c.

(** [str.casefold] on ASCII names. *)
Fixpoint ascii_casefold (s : string) : string :=
  match s with
  | EmptyString => EmptyString
  | String c rest => String (lower c) (ascii_casefold rest)
  end.

(** [posixpath]: the path up to and including its last slash, and what
    follows that slash. *)
Fixpoint split_path (p : string) : string * string :=
  match p with
  | EmptyString => (EmptyString, EmptyString)
  | String c rest =>
      let '(head, tail) := split_path rest in
      if decide (head = EmptyString) then
        if decide (c = "/"%char) then (String c EmptyString, tail)
        else (EmptyString, String c tail)
      else (String c head, tail)
  end.

(** [s.rstrip("/")]. *)
Fixpoint rstrip_slashes (s : string) : string :=
  match s with
  | EmptyString => EmptyString
  | String c rest =>
      let rest' := rstrip_slashes rest in
      if decide (rest' = EmptyString ∧ c = "/"%char) then EmptyString
      else String c rest'
  end.

Definition basename (p : string) : string := (split_path p).2.

(** The head without its trailing slashes, unless it consists of slashes
    only. *)
Definition dirname (p : string) : string :=
  let head := (split_path p).1 in
  if decide (rstrip_slashes head = EmptyString) then head
  else rstrip_slashes head.

Definition runtime (domains : PyExn + list Domain.t)
    (desc : PyExn + Describe)
    (subtypes : PyExn + list (Code * SubtypeDict)) : Runtime :=
  {| os_path_basename := basename;
     os_path_dirname := dirname;
     casefold := ascii_casefold;
     arcpy_da_ListDomains := λ _, domains;
     arcpy_da_Describe := λ _, desc;
     arcpy_da_ListSubtypes := λ _, subtypes |}.

Definition coded (name : string) (codes : list (Code * string)) (type : string)
  : Domain.t :=
  Domain.Build (Some codes) "" "CodedValue" "DefaultValue" name None
    (None, None) "DefaultValue" type.

Definition ranged (name : string) (lo hi : Z) (type : string) : Domain.t :=
  Domain.Build None "" "Range" "DefaultValue" name None
    (Some (NInt lo), Some (NInt hi)) "DefaultValue" type.

Definition c1 : Code := CodeNum (NInt 1).
Definition c2 : Code := CodeNum (NInt 2).

Definition objectid : ArcpyField.t :=
  ArcpyField.Build "OBJECTID" "OID" (Some 4%Z) false false "".
Definition shape : ArcpyField.t :=
  ArcpyField.Build "SHAPE" "Geometry" (Some 0%Z) true true "".
Definition locked_shape : ArcpyField.t :=
  ArcpyField.Build "SHAPE" "Geometry" (Some 0%Z) false true "".
Definition road_name : ArcpyField.t :=
  ArcpyField.Build "NAME" "String" (Some 10%Z) true false "".
Definition lanes : ArcpyField.t :=
  ArcpyField.Build "LANES" "Integer" (Some 4%Z) true true "LaneCount".
Definition status : ArcpyField.t :=
  ArcpyField.Build "STATUS" "SmallInteger" (Some 2%Z) true false "Status".
Definition remarks : ArcpyField.t :=
  ArcpyField.Build "REMARKS" "Text" (Some 10%Z) true false "".
Definition counter : ArcpyField.t :=
  ArcpyField.Build "COUNTER" "BigInteger" (Some 8%Z) true true "".
Definition road_type : ArcpyField.t :=
  ArcpyField.Build "TYPE" "Integer" (Some 4%Z) true false "".
Definition road_type_with_domain : ArcpyField.t :=
  ArcpyField.Build "TYPE" "Integer" (Some 4%Z) true false "RoadTypes".

Definition lane_count : Domain.t := ranged "LaneCount" 0 100 "Long".
Definition status_codes : Domain.t :=
  coded "Status" [(c1, "open"); (c2, "closed")] "Short".
Definition no_codes : Domain.t := coded "Status" [] "Short".
Definition road_types : Domain.t :=
  coded "RoadTypes" [(c1, "A"); (c2, "B")] "Long".

Definition table (shape_name : option string) (subtype_field : string)
    (fs : list ArcpyField.t) : Describe :=
  {| shapeFieldName := shape_name;
     subtypeFieldName := subtype_field;
     fields := fs |}.

(** A subtype that overrides nothing, with one entry per field name. *)
Definition plain_subtype (name : string) (names : list string)
  : SubtypeDict :=
  {| Name := name; FieldValues := (λ n, (n, (None, None))) <$> names |}.

Definition catalog : list Domain.t := [lane_count; status_codes; road_types].

Definition roads : string := "roads.gdb/roads".

(** A feature class without subtypes. *)
Definition flat_roads : Describe :=
  table (Some "SHAPE") ""
    [objectid; shape; road_name; lanes; status; remarks].
Definition flat_rt : Runtime :=
  runtime (inr catalog) (inr flat_roads) (inr []).

(** The table cannot be described. *)
Definition unreadable_rt : Runtime :=
  runtime (inr catalog) (inl (ExternalError "cannot open table")) (inr []).

(** A table with a field of type ["BigInteger"]. *)
Definition counters : Describe := table None "" [objectid; counter].
Definition counters_rt : Runtime :=
  runtime (inr catalog) (inr counters) (inr []).

(** A feature class whose shape field is not editable. *)
Definition locked_roads : Describe :=
  table (Some "SHAPE") "" [objectid; locked_shape; road_name].
Definition locked_rt : Runtime :=
  runtime (inr catalog) (inr locked_roads) (inr []).

(** A feature class with two subtypes on the field ["TYPE"]. *)
Definition subtype_A : SubtypeDict :=
  plain_subtype "A" ["OBJECTID"; "SHAPE"; "TYPE"; "STATUS"].
Definition subtype_B : SubtypeDict :=
  plain_subtype "B" ["OBJECTID"; "SHAPE"; "TYPE"; "STATUS"].
Definition subtypes : list (Code * SubtypeDict) :=
  [(c1, subtype_A); (c2, subtype_B)].
Definition subtyped_roads : Describe :=
  table (Some "SHAPE") "type" [objectid; shape; road_type; status].
Definition subtyped_rt : Runtime :=
  runtime (inr catalog) (inr subtyped_roads) (inr subtypes).

(** The same, with a coded-value domain on the discriminator field. *)
Definition subtyped_roads_with_domain : Describe :=
  table (Some "SHAPE") "type"
    [objectid; shape; road_type_with_domain; status].

(** A subtype whose [FieldValues] list the fields in another order than
    the table does: the entry keyed ["NAME"], with a domain override, is at
    the position of the field [LANES]. *)
Definition swapped_subtype : SubtypeDict :=
  {| Name := "A";
     FieldValues := [("TYPE", (None, None));
                     ("NAME", (None, Some status_codes));
                     ("LANES", (None, None))] |}.
Definition swapped_roads : Describe :=
  table None "TYPE" [road_type; lanes; road_name].


(** A range domain whose type has no pydantic counterpart, and a coded-value
    domain without a [codedValues] dictionary. *)
Definition odd_range : Domain.t := ranged "Odd" 0 9 "Quaternion".
Definition hollow : Domain.t :=
  Domain.Build None "" "CodedValue" "DefaultValue" "Hollow" None (None, None)
    "DefaultValue" "Short".

(** [subtype_A] with default values filled in. *)
Definition subtype_A_defaults : SubtypeDict :=
  {| Name := "A";
     FieldValues := (λ n, (n, (Some c2, None)))
                      <$> ["OBJECTID"; "SHAPE"; "TYPE"; "STATUS"] |}.

(** A subtyped table whose subtype field is not among its fields. *)
Definition orphan_roads : Describe :=
  table (Some "SHAPE") "KIND" [objectid; shape; road_type; status].
Definition orphan_rt : Runtime :=
  runtime (inr catalog) (inr orphan_roads) (inr subtypes).

(** A subtype that lists only the first three fields. *)
Definition short_subtype : SubtypeDict :=
  plain_subtype "A" ["OBJECTID"; "SHAPE"; "TYPE"].

End Examples.

(** ** Reasoning about runs *)

Lemma outcome_bind {A B : Type} (m : Run A) (f : A → Run B) :
  outcome (m ≫= f) =
  match outcome m with
  | inl ex => inl ex
  | inr a => outcome (f a)
  end.
Proof. unfold mbind, run_mbind, run_bind. by destruct (outcome m). Qed.

Lemma logged_bind {A B : Type} (m : Run A) (f : A → Run B) :
  logged (m ≫= f) =
  match outcome m with
  | inl _ => logged m
  | inr a => logged m ++ logged (f a)
  end.
Proof. unfold mbind, run_mbind, run_bind. by destruct (outcome m). Qed.

Lemma bind_inr {A B : Type} (m : Run A) (f : A → Run B) (b : B) :
  outcome (m ≫= f) = inr b ↔
  ∃ a, outcome m = inr a ∧ outcome (f a) = inr b.
Proof.
  rewrite outcome_bind. destruct (outcome m) as [ex|a]; split.
  - discriminate.
  - by intros (a & Ha & _).
  - eauto.
  - by intros (a' & [= <-] & Hf).
Qed.

Lemma bind_raises {A B : Type} (m : Run A) (f : A → Run B) (ex : PyExn) :
  outcome m = inl ex → outcome (m ≫= f) = inl ex.
Proof. intros Hm. by rewrite outcome_bind, Hm. Qed.

Lemma returns_bind {A B : Type} (m : Run A) (f : A → Run B) a b log1 log2 :
  returns m a log1 → returns (f a) b log2 →
  returns (m ≫= f) b (log1 ++ log2).
Proof.
  intros [Hm <-] [Hf <-]. split.
  - by rewrite outcome_bind, Hm.
  - by rewrite logged_bind, Hm.
Qed.

Lemma getitem_returns {V : Type} (d : gmap string V) key v :
  d !! key = Some v → getitem d key = mret v.
Proof. intros H. unfold getitem. by rewrite H. Qed.

Lemma getitem_raises {V : Type} (d : gmap string V) key :
  d !! key = None → outcome (getitem d key) = inl (KeyError key).
Proof. intros H. unfold getitem. by rewrite H. Qed.

Lemma getitem_inr {V : Type} (d : gmap string V) key v :
  outcome (getitem d key) = inr v → d !! key = Some v.
Proof. unfold getitem. destruct (d !! key); [by intros [= ->] | done]. Qed.

(** A property of the loop state that every normal iteration preserves
    holds when the loop ends normally. *)
Lemma for_loop_invariant {A S : Type} (P : S → Prop) (body : A → S → Run S)
    (items : list A) :
  (∀ x s s', x ∈ items → P s → outcome (body x s) = inr s' → P s') →
  ∀ s s', P s → outcome (for_loop body items s) = inr s' → P s'.
Proof.
  induction items as [|x rest IH]; intros Hbody s s' Hs Hrun.
  - by injection Hrun as <-.
  - simpl in Hrun. apply bind_inr in Hrun as (s1 & Hx & Hrest).
    eapply IH; [| |exact Hrest].
    + intros y t t' Hy. apply Hbody. by right.
    + eapply Hbody; [left|exact Hs|exact Hx].
Qed.

(** A body that ends normally on every item makes the loop end normally. *)
Lemma for_loop_completes {A S : Type} (body : A → S → Run S)
    (items : list A) :
  (∀ x s, x ∈ items → ∃ s', outcome (body x s) = inr s') →
  ∀ s, ∃ s', outcome (for_loop body items s) = inr s'.
Proof.
  induction items as [|x rest IH]; intros Hbody s; simpl; [eauto|].
  destruct (Hbody x s) as [s1 H1]; [left|].
  destruct (IH (λ y t Hy, Hbody y t (list_elem_of_further _ _ _ Hy)) s1)
    as [s' Hs'].
  exists s'. apply bind_inr. eauto.
Qed.

(** An item on which the body raises from every state makes the loop
    raise. *)
Lemma for_loop_raises {A S : Type} (body : A → S → Run S) (items : list A)
    (x : A) :
  x ∈ items →
  (∀ s, ∃ ex, outcome (body x s) = inl ex) →
  ∀ s, ∃ ex, outcome (for_loop body items s) = inl ex.
Proof.
  intros Hin Hx. induction Hin as [x rest|x y rest _ IH]; intros s; simpl.
  - destruct (Hx s) as [ex Hex]. exists ex. by apply bind_raises.
  - rewrite outcome_bind. destruct (outcome (body y s)) as [ex|s1]; eauto.
Qed.

(** The handler of [make_table_adapter] lets no exception through. *)
Lemma make_table_adapter_never_raises rt table_path insert_explicit :
  ∃ table_model,
    outcome (make_table_adapter rt table_path insert_explicit)
    = inr table_model.
Proof.
  unfold make_table_adapter.
  destruct (outcome (make_table_adapter_try _ _ _)); eauto.
Qed.

Lemma make_table_adapter_Some rt table_path insert_explicit adapter :
  outcome (make_table_adapter rt table_path insert_explicit)
  = inr (Some adapter) →
  outcome (make_table_adapter_try rt table_path insert_explicit)
  = inr adapter.
Proof.
  unfold make_table_adapter.
  destruct (outcome (make_table_adapter_try _ _ _)); simpl; congruence.
Qed.

(** The handler: an exception of the [try] block is logged and [None] is
    returned. *)
Lemma make_table_adapter_handler rt table_path insert_explicit ex :
  outcome (make_table_adapter_try rt table_path insert_explicit) = inl ex →
  returns (make_table_adapter rt table_path insert_explicit) None
    (logged (make_table_adapter_try rt table_path insert_explicit)
     ++ [LogError ex]).
Proof.
  intros Hex. unfold make_table_adapter, returns. by rewrite Hex.
Qed.

(** ** Failures of the synthesis *)

(** C1, as the code has it: when a step of the synthesis raises, the handler
    of [make_table_adapter] logs the exception as an error and the function
    returns [None]; the exception does not reach the caller. *)
Theorem make_table_adapter_failure_returns_None
    rt table_path insert_explicit ex :
  outcome (make_table_adapter_try rt table_path insert_explicit) = inl ex →
  returns (make_table_adapter rt table_path insert_explicit) None
    (logged (make_table_adapter_try rt table_path insert_explicit)
     ++ [LogError ex]).
Proof. apply make_table_adapter_handler. Qed.

(** C1, counterexample: the table cannot be described, the synthesis
    raises, and the caller receives [None] instead of a failure. *)
Lemma make_table_adapter_swallows_access_failure :
  outcome (make_table_adapter_try Examples.unreadable_rt Examples.roads true)
  = inl (ExternalError "cannot open table")
  ∧ outcome (make_table_adapter Examples.unreadable_rt Examples.roads true)
    = inr None.
Proof. by vm_compute. Qed.

Lemma make_table_adapter_failure_returns_None_witness :
  returns (make_table_adapter Examples.unreadable_rt Examples.roads true) None
    [LogError (ExternalError "cannot open table")].
Proof.
  apply (make_table_adapter_failure_returns_None Examples.unreadable_rt
           Examples.roads true (ExternalError "cannot open table")).
  reflexivity.
Defined.

(** ** The loop bodies, case by case *)

Section loop_bodies.

Context (rt : Runtime) (domains_list : list Domain.t).
Context (shape_field_name : option string) (insert_explicit : bool).

(** What a normal, non-[continue] end of the flat loop body tells. *)
Lemma flat_field_tuple_Some field t :
  outcome (flat_field_tuple rt domains_list shape_field_name insert_explicit
             field) = inr (Some t) →
  ∃ ty,
    field_type_to_pydantic_dict !! ArcpyField.type field = Some ty
    ∧ is_shape_field rt shape_field_name field = false
    ∧ ArcpyField.editable field = true
    ∧ let from_domain :=
        outcome (domain_tuple domains_list (flat_domain_name field) field
                   insert_explicit (max_length_for field)) in
      (from_domain = inr (Some t)
       ∨ (from_domain = inr None
          ∧ t = type_tuple field ty (max_length_for field)
                  insert_explicit)).
Proof.
  unfold flat_field_tuple. intros H.
  apply bind_inr in H as (ty & Hty%getitem_inr & H).
  exists ty. split; [done|].
  destruct (is_shape_field _ _ _); [done|].
  destruct (ArcpyField.editable field); [|done].
  do 2 (split; [done|]). simpl in H.
  apply bind_inr in H as ([t'|] & Hdom & H); injection H as <-; eauto.
Qed.

Lemma flat_field_tuple_returns field ty r log :
  field_type_to_pydantic_dict !! ArcpyField.type field = Some ty →
  is_shape_field rt shape_field_name field = false →
  ArcpyField.editable field = true →
  returns (domain_tuple domains_list (flat_domain_name field) field
             insert_explicit (max_length_for field)) r log →
  returns (flat_field_tuple rt domains_list shape_field_name insert_explicit
             field)
    (Some (default (type_tuple field ty (max_length_for field)
                      insert_explicit) r))
    log.
Proof.
  intros Hty Hshape Hedit Hdom. unfold flat_field_tuple.
  rewrite (getitem_returns _ _ _ Hty), Hshape, Hedit.
  apply (returns_bind _ _ ty _ [] log); [done|]. simpl.
  rewrite <-(app_nil_r log).
  eapply returns_bind; [exact Hdom|]. by destruct r.
Qed.

Context (subtype_field_name : option string) (subtype_code : Code).

(** The same for the body of the subtype loop. *)
Lemma subtype_field_tuple_Some st_tuple field t :
  outcome (subtype_field_tuple rt domains_list shape_field_name
             subtype_field_name subtype_code insert_explicit st_tuple field)
  = inr (Some t) →
  ∃ ty,
    field_type_to_pydantic_dict !! ArcpyField.type field = Some ty
    ∧ is_shape_field rt shape_field_name field = false
    ∧ ArcpyField.editable field = true
    ∧ let from_domain :=
        outcome (domain_tuple domains_list
                   (subtype_domain_name st_tuple.2 field) field
                   insert_explicit (max_length_for field)) in
      (from_domain = inr (Some t)
       ∨ (from_domain = inr None
          ∧ ∃ discriminator,
              subtype_field_name = Some discriminator
              ∧ t = if decide (ArcpyField.name field = discriminator)
                    then pinned_tuple subtype_code
                    else type_tuple field ty (max_length_for field)
                           insert_explicit)).
Proof.
  unfold subtype_field_tuple. destruct st_tuple as [dflt sd]. intros H.
  apply bind_inr in H as (ty & Hty%getitem_inr & H).
  exists ty. split; [done|].
  destruct (is_shape_field _ _ _); [done|].
  destruct (ArcpyField.editable field); [|done].
  do 2 (split; [done|]). simpl in H.
  apply bind_inr in H as ([t'|] & Hdom & H).
  - injection H as <-. eauto.
  - apply bind_inr in H as (d & Hd & H). right. split; [done|].
    exists d. destruct subtype_field_name as [d'|]; [|done].
    injection Hd as ->. split; [done|].
    by destruct (decide _); injection H as <-.
Qed.

Lemma subtype_field_tuple_domain st_tuple field ty t log :
  field_type_to_pydantic_dict !! ArcpyField.type field = Some ty →
  is_shape_field rt shape_field_name field = false →
  ArcpyField.editable field = true →
  returns (domain_tuple domains_list (subtype_domain_name st_tuple.2 field)
             field insert_explicit (max_length_for field)) (Some t) log →
  returns (subtype_field_tuple rt domains_list shape_field_name
             subtype_field_name subtype_code insert_explicit st_tuple field)
    (Some t) log.
Proof.
  intros Hty Hshape Hedit Hdom. unfold subtype_field_tuple.
  destruct st_tuple as [dflt sd].
  rewrite (getitem_returns _ _ _ Hty), Hshape, Hedit.
  apply (returns_bind _ _ ty _ [] log); [done|]. simpl.
  rewrite <-(app_nil_r log).
  by eapply returns_bind; [exact Hdom|].
Qed.

Lemma subtype_field_tuple_no_domain st_tuple field ty discriminator log :
  field_type_to_pydantic_dict !! ArcpyField.type field = Some ty →
  is_shape_field rt shape_field_name field = false →
  ArcpyField.editable field = true →
  subtype_field_name = Some discriminator →
  returns (domain_tuple domains_list (subtype_domain_name st_tuple.2 field)
             field insert_explicit (max_length_for field)) None log →
  returns (subtype_field_tuple rt domains_list shape_field_name
             subtype_field_name subtype_code insert_explicit st_tuple field)
    (Some (if decide (ArcpyField.name field = discriminator)
           then pinned_tuple subtype_code
           else type_tuple field ty (max_length_for field) insert_explicit))
    log.
Proof.
  intros Hty Hshape Hedit -> Hdom. unfold subtype_field_tuple.
  destruct st_tuple as [dflt sd].
  rewrite (getitem_returns _ _ _ Hty), Hshape, Hedit.
  apply (returns_bind _ _ ty _ [] log); [done|]. simpl.
  rewrite <-(app_nil_r log).
  eapply returns_bind; [exact Hdom|]. simpl.
  apply (returns_bind _ _ discriminator _ [] []); [done|].
  by destruct (decide _).
Qed.

End loop_bodies.

(** ** Nullability and requiredness *)

Lemma make_domain_tuple_nullability
    domains_list domain_name nullable insert_explicit max_length t :
  outcome (make_domain_tuple domains_list domain_name nullable insert_explicit
             max_length) = inr (Some t) →
  nullability_rule nullable insert_explicit t.
Proof.
  unfold make_domain_tuple, nullability_rule.
  destruct (find_domain _ _) as [the_domain|]; [|done].
  destruct (decide _).
  - destruct (Domain.codedValues the_domain) as [cv|]; [|done].
    destruct (decide _); [done|].
    by destruct (negb nullable && insert_explicit), max_length;
      intros [= <-].
  - destruct (Domain.range the_domain) as [min_val max_val]. intros H.
    apply bind_inr in H as (ty & _ & H).
    by destruct (negb nullable && insert_explicit); injection H as <-.
Qed.

Lemma type_tuple_nullability field ty max_length insert_explicit :
  nullability_rule (ArcpyField.isNullable field) insert_explicit
    (type_tuple field ty max_length insert_explicit).
Proof.
  unfold type_tuple, nullability_rule.
  destruct (static_bounds field) as [ge le].
  by destruct (negb _ && insert_explicit).
Qed.

Lemma domain_tuple_nullability
    domains_list domain_name field insert_explicit max_length t :
  outcome (domain_tuple domains_list domain_name field insert_explicit
             max_length) = inr (Some t) →
  nullability_rule (ArcpyField.isNullable field) insert_explicit t.
Proof.
  destruct domain_name; [apply make_domain_tuple_nullability | done].
Qed.

(** C3: whichever branch derives it (coded-value domain, range domain or
    no domain, in the flat loop or in the subtype loop), the definition of a
    field that is not the discriminator is required, rejects [None] and has
    no default when the field is not nullable and [insert_explicit] holds;
    otherwise it is not required, accepts [None] and defaults to [None]. *)
Theorem nullability_resolution
    rt domains_list shape_field_name subtype_field_name subtype_code
    insert_explicit st_tuple field t :
  outcome (flat_field_tuple rt domains_list shape_field_name insert_explicit
             field) = inr (Some t)
  ∨ (subtype_field_name ≠ Some (ArcpyField.name field)
     ∧ outcome (subtype_field_tuple rt domains_list shape_field_name
                  subtype_field_name subtype_code insert_explicit st_tuple
                  field) = inr (Some t))
  ∨ (∃ domain_name max_length,
       outcome (make_domain_tuple domains_list domain_name
                  (ArcpyField.isNullable field) insert_explicit max_length)
       = inr (Some t)) →
  if negb (ArcpyField.isNullable field) && insert_explicit
  then is_required t = true ∧ accepts_None t.1 = false ∧ default_of t = None
  else is_required t = false ∧ accepts_None t.1 = true
       ∧ default_of t = Some None.
Proof.
  intros [H|[[Hdisc H]|(dn & ml & H)]].
  - apply flat_field_tuple_Some in H as (ty & _ & _ & _ & [H|[_ ->]]).
    + by apply domain_tuple_nullability in H.
    + apply type_tuple_nullability.
  - apply subtype_field_tuple_Some in H as (ty & _ & _ & _ & [H|[_ H]]).
    + by apply domain_tuple_nullability in H.
    + destruct H as (d & -> & ->).
      destruct (decide _) as [e|_]; [by rewrite e in Hdisc|].
      apply type_tuple_nullability.
  - by apply make_domain_tuple_nullability in H.
Qed.

Lemma nullability_resolution_witness :
  is_required (Prim str, Info (Field None (Some 10%Z) None None)) = true
  ∧ accepts_None (Prim str) = false
  ∧ default_of (Prim str, Info (Field None (Some 10%Z) None None)) = None.
Proof.
  apply (nullability_resolution Examples.flat_rt Examples.catalog
           (Some "SHAPE") None Examples.c1 true (None, None)
           Examples.road_name
           (Prim str, Info (Field None (Some 10%Z) None None))).
  left. by vm_compute.
Defined.

(** ** The discriminator field *)

Lemma pinned_tuple_reading subtype_code :
  literal_set (pinned_tuple subtype_code) = Some [subtype_code]
  ∧ accepts_None (pinned_tuple subtype_code).1 = false
  ∧ default_of (pinned_tuple subtype_code) = Some (Some subtype_code)
  ∧ is_required (pinned_tuple subtype_code) = false.
Proof. done. Qed.

(** The order of the subtype loop body on an editable discriminator field
    that is not the shape field: the effective domain is tried first, and
    the field is pinned to the subtype's code only when the domain yields no
    definition. *)
Lemma discriminator_domain_first
    rt domains_list shape_field_name subtype_code insert_explicit st_tuple
    field ty :
  field_type_to_pydantic_dict !! ArcpyField.type field = Some ty →
  is_shape_field rt shape_field_name field = false →
  ArcpyField.editable field = true →
  let from_domain :=
    domain_tuple domains_list (subtype_domain_name st_tuple.2 field) field
      insert_explicit (max_length_for field) in
  let body :=
    subtype_field_tuple rt domains_list shape_field_name
      (Some (ArcpyField.name field)) subtype_code insert_explicit st_tuple
      field in
  (∀ log, returns from_domain None log →
          returns body (Some (pinned_tuple subtype_code)) log)
  ∧ (∀ t log, returns from_domain (Some t) log → returns body (Some t) log).
Proof.
  intros Hty Hshape Hedit from_domain body. split.
  - intros log Hdom.
    pose proof (subtype_field_tuple_no_domain rt domains_list shape_field_name
                  insert_explicit (Some (ArcpyField.name field)) subtype_code
                  st_tuple field ty (ArcpyField.name field) log
                  Hty Hshape Hedit eq_refl Hdom) as H.
    by rewrite decide_True in H.
  - intros t log Hdom. by eapply subtype_field_tuple_domain.
Qed.

(** C2, on the failing input: the discriminator field [TYPE] of a table
    with subtypes 1 and 2 has the coded-value domain [RoadTypes] with codes
    1 and 2.  The models of both subtypes then define [TYPE] as
    [Literal[1, 2]], the definition derived from the domain, and neither as
    the literal of its own code; on the same table without the domain, each
    model pins [TYPE] to its own code. *)
Theorem discriminator_not_pinned_under_domain :
  definition_in
    (subtype_model Examples.subtyped_rt Examples.catalog
       Examples.subtyped_roads_with_domain "roads" (Some "TYPE") true
       (Examples.c1, Examples.subtype_A))
    "TYPE"
  = Some (Some (Literal [Examples.c1; Examples.c2],
                Info (Field None None None None)))
  ∧ definition_in
      (subtype_model Examples.subtyped_rt Examples.catalog
         Examples.subtyped_roads_with_domain "roads" (Some "TYPE") true
         (Examples.c2, Examples.subtype_B))
      "TYPE"
    = Some (Some (Literal [Examples.c1; Examples.c2],
                  Info (Field None None None None)))
  ∧ literal_set (Literal [Examples.c1; Examples.c2],
                 Info (Field None None None None))
    ≠ literal_set (pinned_tuple Examples.c1)
  ∧ literal_set (Literal [Examples.c1; Examples.c2],
                 Info (Field None None None None))
    ≠ literal_set (pinned_tuple Examples.c2)
  ∧ definitions_of
      (make_table_adapter Examples.subtyped_rt Examples.roads true) "TYPE"
    = Some [Some (pinned_tuple Examples.c1); Some (pinned_tuple Examples.c2)].
Proof. by vm_compute. Qed.

(** ** Length bounds *)

Lemma make_domain_tuple_max_length
    domains_list domain_name nullable insert_explicit max_length t :
  outcome (make_domain_tuple domains_list domain_name nullable insert_explicit
             max_length) = inr (Some t) →
  max_length_of t = max_length ∨ max_length_of t = None.
Proof.
  unfold make_domain_tuple.
  destruct (find_domain _ _) as [the_domain|]; [|done].
  destruct (decide _).
  - destruct (Domain.codedValues the_domain) as [cv|]; [|done].
    destruct (decide _); [done|].
    destruct (negb nullable && insert_explicit), max_length;
      intros [= <-]; auto.
  - destruct (Domain.range the_domain) as [min_val max_val]. intros H.
    apply bind_inr in H as (ty & _ & H).
    destruct (negb nullable && insert_explicit); injection H as <-; auto.
Qed.

Lemma domain_tuple_no_max_length
    domains_list domain_name field insert_explicit t :
  ArcpyField.type field ≠ "String" →
  outcome (domain_tuple domains_list domain_name field insert_explicit
             (max_length_for field)) = inr (Some t) →
  max_length_of t = None.
Proof.
  intros Hty. unfold max_length_for. rewrite decide_False by done.
  destruct domain_name as [dn|]; [|done]. simpl. intros H.
  by apply make_domain_tuple_max_length in H as [H|H].
Qed.

Lemma type_tuple_reading field ty max_length insert_explicit :
  underlying (type_tuple field ty max_length insert_explicit).1 = Prim ty
  ∧ max_length_of (type_tuple field ty max_length insert_explicit)
    = max_length.
Proof.
  unfold type_tuple.
  destruct (static_bounds field) as [ge le].
  by destruct (negb _ && insert_explicit).
Qed.

Lemma type_tuple_bounds field ty max_length insert_explicit :
  bounds_of (type_tuple field ty max_length insert_explicit)
  = static_bounds field.
Proof.
  unfold type_tuple.
  destruct (static_bounds field) as [ge le].
  by destruct (negb _ && insert_explicit).
Qed.

(** C6, as the code has it: only a field whose type is ["String"] gets a
    length bound.  A ["String"] field that is not the discriminator and has
    no usable domain is a [str] with [max_length = field.length]; a field of
    any other type, ["Text"] included, gets no [max_length] in any branch. *)
Theorem max_length_resolution
    rt domains_list shape_field_name subtype_field_name subtype_code
    insert_explicit st_tuple field t :
  let flat :=
    outcome (flat_field_tuple rt domains_list shape_field_name insert_explicit
               field) = inr (Some t) in
  let subtyped :=
    outcome (subtype_field_tuple rt domains_list shape_field_name
               subtype_field_name subtype_code insert_explicit st_tuple field)
    = inr (Some t) in
  (flat ∨ subtyped →
   ArcpyField.type field ≠ "String" → max_length_of t = None)
  ∧ ((flat
      ∧ outcome (domain_tuple domains_list (flat_domain_name field) field
                   insert_explicit (max_length_for field)) = inr None)
     ∨ (subtyped
        ∧ subtype_field_name ≠ Some (ArcpyField.name field)
        ∧ outcome (domain_tuple domains_list
                     (subtype_domain_name st_tuple.2 field) field
                     insert_explicit (max_length_for field)) = inr None) →
     ArcpyField.type field = "String" →
     underlying t.1 = Prim str ∧ max_length_of t = ArcpyField.length field).
Proof.
  intros flat subtyped. split.
  - intros [H|H] Hty.
    + apply flat_field_tuple_Some in H as (ty & _ & _ & _ & [H|[_ ->]]).
      * by eapply domain_tuple_no_max_length.
      * rewrite (proj2 (type_tuple_reading _ _ _ _)).
        unfold max_length_for. by rewrite decide_False.
    + apply subtype_field_tuple_Some in H as (ty & _ & _ & _ & [H|[_ H]]).
      * by eapply domain_tuple_no_max_length.
      * destruct H as (d & _ & ->). destruct (decide _); [done|].
        rewrite (proj2 (type_tuple_reading _ _ _ _)).
        unfold max_length_for. by rewrite decide_False.
  - assert (Hstr : ∀ ty,
               ArcpyField.type field = "String" →
               field_type_to_pydantic_dict !! ArcpyField.type field = Some ty →
               t = type_tuple field ty (max_length_for field) insert_explicit →
               underlying t.1 = Prim str
               ∧ max_length_of t = ArcpyField.length field).
    { intros ty Hty Hlook ->. rewrite Hty in Hlook.
      assert (ty = str) as -> by (vm_compute in Hlook; congruence).
      destruct (type_tuple_reading field str (max_length_for field)
                  insert_explicit) as [-> ->].
      unfold max_length_for. by rewrite decide_True. }
    intros [[H Hnone]|(H & Hdisc & Hnone)] Hty.
    + apply flat_field_tuple_Some in H as (ty & Hlook & _ & _ & [H|[_ H]]).
      * simpl in H. congruence.
      * eauto.
    + apply subtype_field_tuple_Some in H as (ty & Hlook & _ & _ & [H|[_ H]]).
      * simpl in H. congruence.
      * destruct H as (d & -> & H).
        destruct (decide _) as [e|_]; [by rewrite e in Hdisc|]. eauto.
Qed.

(** C6, counterexample: a ["Text"] field of length 10 without a domain gets
    no length bound. *)
Lemma text_field_has_no_max_length :
  ArcpyField.type Examples.remarks = "Text"
  ∧ ArcpyField.length Examples.remarks = Some 10%Z
  ∧ definitions_of
      (make_table_adapter Examples.flat_rt Examples.roads true) "REMARKS"
    = Some [Some (Prim str, Info (Field None None None None))].
Proof. by vm_compute. Qed.

Lemma max_length_resolution_witness :
  underlying (Prim str) = Prim str
  ∧ max_length_of (Prim str, Info (Field None (Some 10%Z) None None))
    = Some 10%Z.
Proof.
  apply (proj2 (max_length_resolution Examples.flat_rt Examples.catalog
                  (Some "SHAPE") None Examples.c1 true (None, None)
                  Examples.road_name
                  (Prim str, Info (Field None (Some 10%Z) None None)))).
  - left. by vm_compute.
  - by vm_compute.
Defined.

(** ** Domains that yield nothing *)

Lemma make_domain_tuple_coded domains_list domain_name the_domain
    nullable insert_explicit max_length t :
  find_domain domains_list domain_name = Some the_domain →
  Domain.domainType the_domain = "CodedValue" →
  outcome (make_domain_tuple domains_list domain_name nullable insert_explicit
             max_length) = inr (Some t) →
  ∃ codedValues,
    Domain.codedValues the_domain = Some codedValues
    ∧ codedValues ≠ []
    ∧ literal_set t = Some codedValues.*1.
Proof.
  intros Hfind Hkind. unfold make_domain_tuple. rewrite Hfind.
  rewrite decide_True by done.
  destruct (Domain.codedValues the_domain) as [cv|]; [|done].
  destruct (decide _) as [|Hlen]; [done|]. intros H. exists cv.
  split; [done|]. split; [by intros ->|].
  by destruct (negb nullable && insert_explicit), max_length;
    injection H as <-.
Qed.

Lemma make_domain_tuple_empty domains_list domain_name the_domain
    nullable insert_explicit max_length :
  find_domain domains_list domain_name = Some the_domain →
  Domain.domainType the_domain = "CodedValue" →
  Domain.codedValues the_domain = Some [] →
  returns (make_domain_tuple domains_list domain_name nullable insert_explicit
             max_length) None [].
Proof.
  intros Hfind Hkind Hcodes. unfold make_domain_tuple.
  by rewrite Hfind, decide_True, Hcodes.
Qed.

Lemma make_domain_tuple_missing domains_list domain_name
    nullable insert_explicit max_length :
  find_domain domains_list domain_name = None →
  returns (make_domain_tuple domains_list domain_name nullable insert_explicit
             max_length) None
    [LogWarning ("Could not find domain named :" +:+ domain_name)].
Proof. intros Hfind. unfold make_domain_tuple. by rewrite Hfind. Qed.

(** C7: a coded-value domain without codes yields no definition, in
    [make_domain_tuple] and so in both loops, where the field gets the
    definition derived from its type (or, for the discriminator of a subtype,
    the pinned literal) exactly as without a domain; and a coded-value
    domain that does yield a definition yields a non-empty literal set. *)
Theorem empty_coded_domain_is_absent domains_list domain_name the_domain :
  find_domain domains_list domain_name = Some the_domain →
  Domain.domainType the_domain = "CodedValue" →
  (Domain.codedValues the_domain = Some [] →
   (∀ nullable insert_explicit max_length,
      returns (make_domain_tuple domains_list domain_name nullable
                 insert_explicit max_length) None [])
   ∧ (∀ rt shape_field_name insert_explicit field ty,
        flat_domain_name field = Some domain_name →
        field_type_to_pydantic_dict !! ArcpyField.type field = Some ty →
        is_shape_field rt shape_field_name field = false →
        ArcpyField.editable field = true →
        returns (flat_field_tuple rt domains_list shape_field_name
                   insert_explicit field)
          (Some (type_tuple field ty (max_length_for field) insert_explicit))
          [])
   ∧ (∀ rt shape_field_name discriminator subtype_code insert_explicit
        st_tuple field ty,
        subtype_domain_name st_tuple.2 field = Some domain_name →
        field_type_to_pydantic_dict !! ArcpyField.type field = Some ty →
        is_shape_field rt shape_field_name field = false →
        ArcpyField.editable field = true →
        returns (subtype_field_tuple rt domains_list shape_field_name
                   (Some discriminator) subtype_code insert_explicit st_tuple
                   field)
          (Some (if decide (ArcpyField.name field = discriminator)
                 then pinned_tuple subtype_code
                 else type_tuple field ty (max_length_for field)
                        insert_explicit))
          []))
  ∧ (∀ nullable insert_explicit max_length t,
       outcome (make_domain_tuple domains_list domain_name nullable
                  insert_explicit max_length) = inr (Some t) →
       ∃ codes, literal_set t = Some codes ∧ codes ≠ []).
Proof.
  intros Hfind Hkind. split.
  - intros Hcodes. split; [|split].
    + intros. by eapply make_domain_tuple_empty.
    + intros rt shape strict field ty Hname Hty Hshape Hedit.
      apply (flat_field_tuple_returns rt domains_list shape strict field ty
               None []); [done..|].
      rewrite Hname. by eapply make_domain_tuple_empty.
    + intros rt shape d code strict st field ty Hname Hty Hshape Hedit.
      apply subtype_field_tuple_no_domain; [done..|].
      rewrite Hname. by eapply make_domain_tuple_empty.
  - intros nullable strict ml t H.
    eapply make_domain_tuple_coded in H as (cv & _ & Hne & Hlit); [|done..].
    exists cv.*1. split; [done|]. by destruct cv.
Qed.

Lemma empty_coded_domain_is_absent_witness :
  returns
    (flat_field_tuple Examples.flat_rt [Examples.no_codes] (Some "SHAPE") true
       Examples.status)
    (Some (Prim int,
           Info (Field None None (Some (NInt (-32768))) (Some (NInt 32767)))))
    [].
Proof.
  apply (proj1 (proj2 (proj1
           (empty_coded_domain_is_absent [Examples.no_codes] "Status"
              Examples.no_codes ltac:(by vm_compute) ltac:(by vm_compute))
           ltac:(by vm_compute)))
         Examples.flat_rt (Some "SHAPE") true Examples.status int);
    by vm_compute.
Defined.

(** In a table whose fields have mapped types and name no domain but the
    missing one, the body of the flat loop ends normally on every field. *)
Lemma flat_field_tuple_completes
    rt domains_list shape_field_name insert_explicit domain_name field :
  find_domain domains_list domain_name = None →
  is_Some (field_type_to_pydantic_dict !! ArcpyField.type field) →
  ArcpyField.domain field = "" ∨ ArcpyField.domain field = domain_name →
  ∃ t, outcome (flat_field_tuple rt domains_list shape_field_name
                  insert_explicit field) = inr t.
Proof.
  intros Hfind [ty Hty] Hdom.
  destruct (is_shape_field rt shape_field_name field) eqn:Hshape.
  { exists None. unfold flat_field_tuple.
    by rewrite (getitem_returns _ _ _ Hty), outcome_bind, Hshape. }
  destruct (ArcpyField.editable field) eqn:Hedit.
  2: { exists None. unfold flat_field_tuple.
       by rewrite (getitem_returns _ _ _ Hty), outcome_bind, Hshape, Hedit. }
  assert (∃ log, returns (domain_tuple domains_list (flat_domain_name field)
                            field insert_explicit (max_length_for field))
                   None log) as [log Hnone].
  { unfold flat_domain_name. destruct (decide _) as [Hne|_]; [|by exists []].
    destruct Hdom as [?| ->]; [done|]. eexists.
    by apply make_domain_tuple_missing. }
  eexists.
  by eapply flat_field_tuple_returns.
Qed.

(** C8: a domain name that is not in the catalog makes [make_domain_tuple]
    log one warning and return [None]; both loops then go on and give the
    field the definition derived from its type and static bounds (or, for the
    discriminator of a subtype, the pinned literal), as for a field without
    a domain.  The miss raises nothing: a flat table whose fields have mapped
    types and name no other domain gets its record schema. *)
Theorem missing_domain_falls_back domains_list domain_name :
  find_domain domains_list domain_name = None →
  let warning :=
    LogWarning ("Could not find domain named :" +:+ domain_name) in
  (∀ nullable insert_explicit max_length,
     returns (make_domain_tuple domains_list domain_name nullable
                insert_explicit max_length) None [warning])
  ∧ (∀ rt shape_field_name insert_explicit field ty,
       flat_domain_name field = Some domain_name →
       field_type_to_pydantic_dict !! ArcpyField.type field = Some ty →
       is_shape_field rt shape_field_name field = false →
       ArcpyField.editable field = true →
       let t := type_tuple field ty (max_length_for field) insert_explicit in
       returns (flat_field_tuple rt domains_list shape_field_name
                  insert_explicit field) (Some t) [warning]
       ∧ underlying t.1 = Prim ty
       ∧ bounds_of t = static_bounds field)
  ∧ (∀ rt shape_field_name discriminator subtype_code insert_explicit
       st_tuple field ty,
       subtype_domain_name st_tuple.2 field = Some domain_name →
       field_type_to_pydantic_dict !! ArcpyField.type field = Some ty →
       is_shape_field rt shape_field_name field = false →
       ArcpyField.editable field = true →
       returns (subtype_field_tuple rt domains_list shape_field_name
                  (Some discriminator) subtype_code insert_explicit st_tuple
                  field)
         (Some (if decide (ArcpyField.name field = discriminator)
                then pinned_tuple subtype_code
                else type_tuple field ty (max_length_for field)
                       insert_explicit))
         [warning])
  ∧ (∀ rt desc table_name insert_explicit,
       (∀ field, field ∈ fields desc →
          is_Some (field_type_to_pydantic_dict !! ArcpyField.type field)
          ∧ (ArcpyField.domain field = ""
             ∨ ArcpyField.domain field = domain_name)) →
       ∃ m, outcome (flat_model rt domains_list desc table_name
                       insert_explicit) = inr m).
Proof.
  intros Hfind warning. split; [|split; [|split]].
  - intros. by apply make_domain_tuple_missing.
  - intros rt shape strict field ty Hname Hty Hshape Hedit t.
    split; [|split].
    + apply (flat_field_tuple_returns rt domains_list shape strict field ty
               None [warning]); [done..|].
      rewrite Hname. by apply make_domain_tuple_missing.
    + apply type_tuple_reading.
    + apply type_tuple_bounds.
  - intros rt shape d code strict st field ty Hname Hty Hshape Hedit.
    apply subtype_field_tuple_no_domain; [done..|].
    rewrite Hname. by apply make_domain_tuple_missing.
  - intros rt desc table_name strict Hfields. unfold flat_model.
    edestruct (for_loop_completes
                 (λ field create_model_params,
                    t ← flat_field_tuple rt domains_list (shapeFieldName desc)
                          strict field;
                    mret (store field t create_model_params))
                 (fields desc)) as [params Hparams].
    + intros field s Hin. destruct (Hfields field Hin) as [Hty Hdom].
      edestruct flat_field_tuple_completes as [t Ht]; [done..|].
      eexists. apply bind_inr. eauto.
    + eexists. apply bind_inr. eauto.
Qed.

Lemma missing_domain_falls_back_witness :
  returns
    (flat_field_tuple Examples.flat_rt [Examples.lane_count] (Some "SHAPE")
       true Examples.status)
    (Some (Prim int,
           Info (Field None None (Some (NInt (-32768))) (Some (NInt 32767)))))
    [LogWarning "Could not find domain named :Status"].
Proof.
  apply (proj1 (proj1 (proj2
           (missing_domain_falls_back [Examples.lane_count] "Status"
              ltac:(by vm_compute)))
         Examples.flat_rt (Some "SHAPE") true Examples.status int
         ltac:(by vm_compute) ltac:(by vm_compute) ltac:(by vm_compute)
         ltac:(by vm_compute))).
Defined.

(** ** The record schemas as a whole *)

Lemma is_shape_field_name_ne rt shape field :
  is_shape_field rt (Some shape) field = false →
  ArcpyField.name field ≠ shape.
Proof.
  unfold is_shape_field. intros H Hname.
  apply bool_decide_eq_false in H. by rewrite Hname in H.
Qed.

Lemma shape_params_invariant desc :
  params_invariant desc (shape_params (shapeFieldName desc)).
Proof.
  unfold params_invariant, shape_params. split.
  - intros shape ->. apply lookup_insert_eq.
  - intros key t. destruct (shapeFieldName desc) as [shape|]; [|done].
    intros [[<- _]|[_ H]]%lookup_insert_Some; [by left|done].
Qed.

(** Storing the tuple of a field that is editable and is not the shape field
    keeps the invariant. *)
Lemma store_invariant rt desc field t params :
  field ∈ fields desc →
  (∀ t', t = Some t' →
         is_shape_field rt (shapeFieldName desc) field = false
         ∧ ArcpyField.editable field = true) →
  params_invariant desc params →
  params_invariant desc (store field t params).
Proof.
  intros Hin Ht [Hshape Hkeys]. destruct t as [t'|]; [|done].
  destruct (Ht t' eq_refl) as [Hns Hedit]. split; simpl.
  - intros shape Hs. rewrite Hs in Hns.
    rewrite lookup_insert_ne by by eapply is_shape_field_name_ne.
    by apply Hshape.
  - intros key t. rewrite lookup_insert_Some.
    intros [[<- _]|[_ H]]; [right; eauto | by eapply Hkeys].
Qed.

Lemma flat_model_invariant rt domains_list desc table_name insert_explicit m :
  outcome (flat_model rt domains_list desc table_name insert_explicit)
  = inr m →
  params_invariant desc (model_fields m).
Proof.
  unfold flat_model. intros H.
  apply bind_inr in H as (params & Hloop & [= <-]). simpl.
  revert Hloop. apply for_loop_invariant; [|apply shape_params_invariant].
  intros field s s' Hin Hs Hbody.
  apply bind_inr in Hbody as (t & Ht & [= <-]).
  eapply store_invariant; [done| |done].
  intros t' ->. by apply flat_field_tuple_Some in Ht as (_ & _ & ? & ? & _).
Qed.

Lemma subtype_model_invariant rt domains_list desc table_name
    subtype_field_name insert_explicit item m :
  outcome (subtype_model rt domains_list desc table_name subtype_field_name
             insert_explicit item) = inr m →
  params_invariant desc (model_fields m).
Proof.
  unfold subtype_model. destruct item as [subtype_code subtype_dict].
  intros H. apply bind_inr in H as (params & Hloop & [= <-]). simpl.
  revert Hloop. apply for_loop_invariant; [|apply shape_params_invariant].
  intros [st_tuple field] s s' Hin Hs Hbody.
  apply bind_inr in Hbody as (t & Ht & [= <-]).
  eapply store_invariant; [by eapply elem_of_zip_r| |done].
  intros t' ->.
  by apply subtype_field_tuple_Some in Ht as (_ & _ & ? & ? & _).
Qed.

(** Every record schema of the adapter that [make_table_adapter] returns
    satisfies the invariant, for the description the table had. *)
Lemma make_table_adapter_invariant
    rt table_path insert_explicit desc adapter m :
  arcpy_da_Describe rt table_path = inr desc →
  outcome (make_table_adapter rt table_path insert_explicit)
  = inr (Some adapter) →
  m ∈ models_of adapter →
  params_invariant desc (model_fields m).
Proof.
  intros Hdesc H%make_table_adapter_Some. unfold make_table_adapter_try in H.
  apply bind_inr in H as (domains_list & _ & H).
  apply bind_inr in H as (desc' & Hdesc' & H).
  simpl in Hdesc'. rewrite Hdesc in Hdesc'. injection Hdesc' as <-.
  destruct (decide _).
  - apply bind_inr in H as (subtypes_dict & _ & H).
    apply bind_inr in H as (subtype_models & Hloop & H).
    apply bind_inr in H as (discriminator & _ & [= <-]). simpl.
    revert m. change (∀ m, m ∈ subtype_models →
                           params_invariant desc (model_fields m)).
    revert Hloop.
    apply (for_loop_invariant
             (λ ms, ∀ m, m ∈ ms → params_invariant desc (model_fields m)));
      [|by intros m ?%elem_of_nil].
    intros item ms ms' _ Hms Hbody m.
    apply bind_inr in Hbody as (m' & Hm' & [= <-]).
    intros [?| ->%list_elem_of_singleton]%elem_of_app; [by apply Hms|].
    by eapply subtype_model_invariant.
  - apply bind_inr in H as (m' & Hm' & [= <-]). simpl.
    intros ->%list_elem_of_singleton. by eapply flat_model_invariant.
Qed.

(** C5, as the code has it: in every record schema of a table that has a
    shape field, whatever [insert_explicit] is, the shape field is defined
    as [(Any, Field())]: it is required, and it accepts every value, [None]
    included. *)
Theorem shape_field_tuple rt table_path insert_explicit desc shape adapter m :
  arcpy_da_Describe rt table_path = inr desc →
  shapeFieldName desc = Some shape →
  outcome (make_table_adapter rt table_path insert_explicit)
  = inr (Some adapter) →
  m ∈ models_of adapter →
  model_fields m !! shape = Some shape_tuple
  ∧ is_required shape_tuple = true
  ∧ accepts_None shape_tuple.1 = true.
Proof.
  intros Hdesc Hshape Hrun Hm. split; [|done].
  by eapply make_table_adapter_invariant.
Qed.

(** C5, counterexample: the definition of the shape field accepts
    [None]. *)
Lemma shape_field_accepts_None :
  definitions_of
    (make_table_adapter Examples.flat_rt Examples.roads true) "SHAPE"
  = Some [Some (Any, Info (Field None None None None))]
  ∧ accepts_None Any = true.
Proof. by vm_compute. Qed.

Lemma shape_field_tuple_witness :
  ∃ m, model_fields m !! "SHAPE" = Some shape_tuple
       ∧ is_required shape_tuple = true
       ∧ accepts_None shape_tuple.1 = true.
Proof.
  eexists.
  eapply (shape_field_tuple Examples.flat_rt Examples.roads false
            Examples.flat_roads "SHAPE").
  - reflexivity.
  - reflexivity.
  - vm_compute. reflexivity.
  - simpl. left.
Defined.

(** C9, as the code has it: every entry of every record schema, flat or of
    a subtype, is the entry of the shape field or carries the name of an
    editable field; a field that is not editable contributes no entry, unless
    it is the shape field, which is entered whatever its [editable] flag
    is. *)
Theorem only_shape_and_editable_fields
    rt table_path insert_explicit desc adapter m key t :
  arcpy_da_Describe rt table_path = inr desc →
  outcome (make_table_adapter rt table_path insert_explicit)
  = inr (Some adapter) →
  m ∈ models_of adapter →
  model_fields m !! key = Some t →
  Some key = shapeFieldName desc
  ∨ ∃ field, field ∈ fields desc
             ∧ ArcpyField.name field = key
             ∧ ArcpyField.editable field = true.
Proof.
  intros Hdesc Hrun Hm.
  by eapply make_table_adapter_invariant.
Qed.

(** C9, counterexample: the shape field of the table is not editable, and
    the record schema has an entry for it. *)
Lemma locked_shape_field_is_entered :
  Examples.locked_shape ∈ fields Examples.locked_roads
  ∧ ArcpyField.editable Examples.locked_shape = false
  ∧ definitions_of
      (make_table_adapter Examples.locked_rt Examples.roads true)
      (ArcpyField.name Examples.locked_shape)
    = Some [Some shape_tuple].
Proof. split; [|by vm_compute]. right. left. Qed.

Lemma only_shape_and_editable_fields_witness :
  Some "NAME" = shapeFieldName Examples.flat_roads
  ∨ ∃ field, field ∈ fields Examples.flat_roads
             ∧ ArcpyField.name field = "NAME"
             ∧ ArcpyField.editable field = true.
Proof.
  eapply (only_shape_and_editable_fields Examples.flat_rt Examples.roads true
            Examples.flat_roads _ _ "NAME").
  - reflexivity.
  - vm_compute. reflexivity.
  - simpl. left.
  - by vm_compute.
Defined.

(** ** Types without a pydantic counterpart *)

Lemma flat_field_tuple_unmapped
    rt domains_list shape_field_name insert_explicit field :
  field_type_to_pydantic_dict !! ArcpyField.type field = None →
  outcome (flat_field_tuple rt domains_list shape_field_name insert_explicit
             field) = inl (KeyError (ArcpyField.type field)).
Proof.
  intros Hty. unfold flat_field_tuple.
  by apply bind_raises, getitem_raises.
Qed.

Lemma subtype_field_tuple_unmapped
    rt domains_list shape_field_name subtype_field_name subtype_code
    insert_explicit st_tuple field :
  field_type_to_pydantic_dict !! ArcpyField.type field = None →
  outcome (subtype_field_tuple rt domains_list shape_field_name
             subtype_field_name subtype_code insert_explicit st_tuple field)
  = inl (KeyError (ArcpyField.type field)).
Proof.
  intros Hty. unfold subtype_field_tuple. destruct st_tuple.
  by apply bind_raises, getitem_raises.
Qed.

Lemma flat_model_unmapped
    rt domains_list desc table_name insert_explicit field :
  field ∈ fields desc →
  field_type_to_pydantic_dict !! ArcpyField.type field = None →
  ∃ ex, outcome (flat_model rt domains_list desc table_name insert_explicit)
        = inl ex.
Proof.
  intros Hin Hty. unfold flat_model.
  edestruct (for_loop_raises
               (λ field create_model_params,
                  t ← flat_field_tuple rt domains_list (shapeFieldName desc)
                        insert_explicit field;
                  mret (store field t create_model_params))
               (fields desc) field Hin) as [ex Hex].
  - intros s. eexists. by apply bind_raises, flat_field_tuple_unmapped.
  - exists ex. apply bind_raises, Hex.
Qed.

Lemma subtype_model_unmapped
    rt domains_list desc table_name subtype_field_name insert_explicit
    subtype_code subtype_dict st_tuple field :
  (st_tuple, field) ∈ st_fld_zip subtype_dict desc →
  field_type_to_pydantic_dict !! ArcpyField.type field = None →
  ∃ ex, outcome (subtype_model rt domains_list desc table_name
                   subtype_field_name insert_explicit
                   (subtype_code, subtype_dict)) = inl ex.
Proof.
  intros Hin Hty. unfold subtype_model.
  edestruct (for_loop_raises
               (λ '(st_tuple, field) create_model_params,
                  t ← subtype_field_tuple rt domains_list
                        (shapeFieldName desc) subtype_field_name subtype_code
                        insert_explicit st_tuple field;
                  mret (store field t create_model_params))
               (st_fld_zip subtype_dict desc) (st_tuple, field) Hin)
    as [ex Hex].
  - intros s. eexists. by apply bind_raises, subtype_field_tuple_unmapped.
  - exists ex. apply bind_raises, Hex.
Qed.

(** C4, as the code has it: a field whose type is not a key of
    [field_type_to_pydantic_dict] makes the synthesis raise as soon as a loop
    reaches it (every field of a table without subtypes; in a table with
    subtypes, a field that [zip] pairs with an entry of some subtype's
    [FieldValues]).  The exception is not surfaced: the handler logs it and
    [make_table_adapter] returns [None]. *)
Theorem unmapped_type_returns_None
    rt table_path insert_explicit desc field :
  arcpy_da_Describe rt table_path = inr desc →
  field_type_to_pydantic_dict !! ArcpyField.type field = None →
  (subtypeFieldName desc = "" ∧ field ∈ fields desc)
  ∨ (∃ subtypes_dict subtype_code subtype_dict st_tuple,
       arcpy_da_ListSubtypes rt table_path = inr subtypes_dict
       ∧ (subtype_code, subtype_dict) ∈ subtypes_dict
       ∧ (st_tuple, field) ∈ st_fld_zip subtype_dict desc) →
  ∃ ex,
    outcome (make_table_adapter_try rt table_path insert_explicit) = inl ex
    ∧ returns (make_table_adapter rt table_path insert_explicit) None
        (logged (make_table_adapter_try rt table_path insert_explicit)
         ++ [LogError ex]).
Proof.
  intros Hdesc Hty Hreach.
  cut (∃ ex, outcome (make_table_adapter_try rt table_path insert_explicit)
             = inl ex).
  { intros [ex Hex]. exists ex. split; [done|].
    by apply make_table_adapter_handler. }
  unfold make_table_adapter_try. rewrite outcome_bind. simpl.
  destruct (arcpy_da_ListDomains rt _) as [ex|domains_list]; [eauto|].
  rewrite outcome_bind. simpl. rewrite Hdesc.
  destruct (decide _) as [Hsub|Hflat].
  - destruct Hreach as [[Hnone _]|(sts & code & sd & st & Hsts & Hin & Hzip)];
      [done|].
    rewrite outcome_bind. simpl. rewrite Hsts.
    edestruct (for_loop_raises
                 (λ item subtype_models,
                    m ← subtype_model rt domains_list desc
                          (os_path_basename rt table_path)
                          (find_subtype_field rt
                             (ArcpyField.name <$> fields desc)
                             (subtypeFieldName desc))
                          insert_explicit item;
                    mret (subtype_models ++ [m]))
                 sts (code, sd) Hin) as [ex Hex].
    + intros s.
      edestruct subtype_model_unmapped as [ex Hex]; [done..|].
      exists ex. apply bind_raises, Hex.
    + exists ex. apply bind_raises, Hex.
  - assert (field ∈ fields desc) as Hin.
    { destruct Hreach as [[_ ?]|(? & ? & ? & ? & _ & _ & ?)]; [done|].
      by eapply elem_of_zip_r. }
    edestruct flat_model_unmapped as [ex Hex]; [done..|].
    exists ex. apply bind_raises, Hex.
Qed.

(** C4, counterexample: a ["BigInteger"] field raises [KeyError] inside the
    synthesis, and the caller receives [None]. *)
Lemma unmapped_type_is_swallowed :
  outcome (make_table_adapter_try Examples.counters_rt Examples.roads true)
  = inl (KeyError "BigInteger")
  ∧ outcome (make_table_adapter Examples.counters_rt Examples.roads true)
    = inr None.
Proof. by vm_compute. Qed.

Lemma unmapped_type_returns_None_witness :
  ∃ ex,
    outcome (make_table_adapter_try Examples.counters_rt Examples.roads true)
    = inl ex
    ∧ returns (make_table_adapter Examples.counters_rt Examples.roads true)
        None
        (logged (make_table_adapter_try Examples.counters_rt Examples.roads
                   true)
         ++ [LogError ex]).
Proof.
  apply (unmapped_type_returns_None Examples.counters_rt Examples.roads true
           Examples.counters Examples.counter).
  - reflexivity.
  - by vm_compute.
  - left. split; [reflexivity|]. right. left.
Defined.

(** ** Pairing of subtype entries with fields *)

Lemma fmap_rename_values {A : Type} (rename : string → string)
    (l : list (string * A)) :
  (prod_map rename id <$> l).*2 = l.*2.
Proof. induction l as [|[k v] l IH]; [done|]. cbn. by f_equal. Qed.

(** * Further properties of the module *)

(** ** The domain search *)

Lemma find_domain_skip earlier rest domain_name :
  (∀ d, d ∈ earlier → Domain.name d ≠ domain_name) →
  find_domain (earlier ++ rest) domain_name = find_domain rest domain_name.
Proof.
  induction earlier as [|a earlier IH]; intros Hne; [done|]. simpl.
  rewrite decide_False by (apply Hne; left).
  apply IH. intros d Hd. apply Hne. by right.
Qed.

(** X1: the search of [make_domain_tuple] finds the first domain of the list
    that bears the name, and finds nothing exactly when no domain of the list
    bears it. *)
Theorem find_domain_first_match domains_list domain_name :
  (∀ the_domain,
     find_domain domains_list domain_name = Some the_domain
     ↔ ∃ earlier later,
         domains_list = earlier ++ the_domain :: later
         ∧ Domain.name the_domain = domain_name
         ∧ ∀ d, d ∈ earlier → Domain.name d ≠ domain_name)
  ∧ (find_domain domains_list domain_name = None
     ↔ ∀ d, d ∈ domains_list → Domain.name d ≠ domain_name).
Proof.
  split.
  - intros the_domain. split.
    + induction domains_list as [|a l IH]; [done|]. simpl.
      destruct (decide _) as [Ha|Ha].
      * intros [= <-]. exists [], l. split_and!; [done..|].
        by intros d ?%elem_of_nil.
      * intros (earlier & later & -> & Hname & Hne)%IH.
        exists (a :: earlier), later. split_and!; [done..|].
        by intros d [->|?]%elem_of_cons; [|apply Hne].
    + intros (earlier & later & -> & Hname & Hne).
      rewrite find_domain_skip by done. simpl. by rewrite decide_True.
  - induction domains_list as [|a l IH]; simpl.
    + split; [by intros _ d ?%elem_of_nil|done].
    + destruct (decide _) as [Ha|Ha].
      * split; [done|]. intros H. exfalso. by apply (H a); [left|].
      * rewrite IH. split.
        -- by intros H d [->|?]%elem_of_cons; [|apply H].
        -- intros H d Hd. apply H. by right.
Qed.

(** ** What [make_domain_tuple] builds *)

(** X2: a domain that is not a coded-value domain is read as a range
    domain: the definition has the pydantic type of the domain's own [type],
    the endpoints of [range] as [ge] and [le], no literal set, and no
    [max_length] whatever [max_length] was passed; nothing is logged. *)
Theorem make_domain_tuple_range
    domains_list domain_name the_domain nullable insert_explicit max_length
    ty :
  find_domain domains_list domain_name = Some the_domain →
  Domain.domainType the_domain ≠ "CodedValue" →
  field_type_to_pydantic_dict !! Domain.type the_domain = Some ty →
  ∃ t,
    returns (make_domain_tuple domains_list domain_name nullable
               insert_explicit max_length) (Some t) []
    ∧ underlying t.1 = Prim ty
    ∧ bounds_of t = Domain.range the_domain
    ∧ max_length_of t = None
    ∧ literal_set t = None.
Proof.
  intros Hfind Hkind Hty. unfold make_domain_tuple.
  rewrite Hfind, decide_False by done.
  destruct (Domain.range the_domain) as [min_val max_val].
  rewrite (getitem_returns _ _ _ Hty).
  destruct (negb nullable && insert_explicit); eexists; by split_and!.
Qed.

Lemma make_domain_tuple_range_witness :
  ∃ t,
    returns (make_domain_tuple Examples.catalog "LaneCount" true true
               (Some 10%Z)) (Some t) []
    ∧ underlying t.1 = Prim int
    ∧ bounds_of t = (Some (NInt 0), Some (NInt 100))
    ∧ max_length_of t = None
    ∧ literal_set t = None.
Proof.
  apply (make_domain_tuple_range Examples.catalog "LaneCount"
           Examples.lane_count true true (Some 10%Z) int);
    by vm_compute.
Defined.

(** X3: [make_domain_tuple] raises in two cases only, and logs nothing when
    it does: a coded-value domain whose [codedValues] is [None]
    ([AttributeError]), and a range domain whose [type] is not a key of
    [field_type_to_pydantic_dict] ([KeyError] with that type). *)
Theorem make_domain_tuple_raises
    domains_list domain_name nullable insert_explicit max_length ex :
  outcome (make_domain_tuple domains_list domain_name nullable insert_explicit
             max_length) = inl ex
  ↔ ∃ the_domain,
      find_domain domains_list domain_name = Some the_domain
      ∧ logged (make_domain_tuple domains_list domain_name nullable
                  insert_explicit max_length) = []
      ∧ ((Domain.domainType the_domain = "CodedValue"
          ∧ Domain.codedValues the_domain = None
          ∧ ex = AttributeError "keys")
         ∨ (Domain.domainType the_domain ≠ "CodedValue"
            ∧ field_type_to_pydantic_dict !! Domain.type the_domain = None
            ∧ ex = KeyError (Domain.type the_domain))).
Proof.
  unfold make_domain_tuple.
  destruct (find_domain _ _) as [d|]; [|split; [done|by intros (? & ? & _)]].
  destruct (decide _) as [Hkind|Hkind].
  - destruct (Domain.codedValues d) as [cv|] eqn:Hcv.
    + split.
      * by destruct (decide _), (negb nullable && insert_explicit),
          max_length.
      * intros (d' & [= <-] & _ & [(_ & Hnone & _)|(Hne & _)]); congruence.
    + split.
      * intros [= <-]. exists d. split_and!; [done..|]. by left.
      * intros (d' & [= <-] & _ & [(_ & _ & ->)|(Hne & _)]); done.
  - destruct (Domain.range d) as [min_val max_val].
    unfold getitem.
    destruct (field_type_to_pydantic_dict !! Domain.type d) as [ty|] eqn:Hty.
    + split.
      * by destruct (negb nullable && insert_explicit).
      * intros (d' & [= <-] & _ & [(Hk & _)|(_ & Hnone & _)]); congruence.
    + split.
      * intros [= <-]. exists d. split_and!; [done..|]. by right.
      * intros (d' & [= <-] & _ & [(Hk & _)|(_ & _ & ->)]); done.
Qed.

(** X4: a coded-value domain with codes yields [Literal] over the keys of
    [codedValues] in their order, with the [max_length] that was passed and
    without numeric bounds; nothing is logged, and the [type] of the domain
    is not consulted. *)
Theorem make_domain_tuple_coded_reading
    domains_list domain_name the_domain codedValues nullable insert_explicit
    max_length :
  find_domain domains_list domain_name = Some the_domain →
  Domain.domainType the_domain = "CodedValue" →
  Domain.codedValues the_domain = Some codedValues →
  codedValues ≠ [] →
  ∃ t,
    returns (make_domain_tuple domains_list domain_name nullable
               insert_explicit max_length) (Some t) []
    ∧ literal_set t = Some codedValues.*1
    ∧ max_length_of t = max_length
    ∧ bounds_of t = (None, None).
Proof.
  intros Hfind Hkind Hcv Hne. unfold make_domain_tuple.
  rewrite Hfind, decide_True, Hcv by done.
  rewrite decide_False by by destruct codedValues.
  destruct (negb nullable && insert_explicit), max_length;
    eexists; by split_and!.
Qed.

Lemma make_domain_tuple_coded_reading_witness :
  ∃ t,
    returns (make_domain_tuple Examples.catalog "Status" false true
               (Some 10%Z)) (Some t) []
    ∧ literal_set t = Some [Examples.c1; Examples.c2]
    ∧ max_length_of t = Some 10%Z
    ∧ bounds_of t = (None, None).
Proof.
  apply (make_domain_tuple_coded_reading Examples.catalog "Status"
           Examples.status_codes
           [(Examples.c1, "open"); (Examples.c2, "closed")] false true
           (Some 10%Z));
    by vm_compute.
Defined.

(** ** What a subtype contributes *)

Lemma run_bind_ext {A B : Type} (m : Run A) (f g : A → Run B) :
  (∀ a, f a = g a) → m ≫= f = m ≫= g.
Proof.
  intros Hfg. unfold mbind, run_mbind, run_bind.
  destruct (outcome m); [done|]. by rewrite Hfg.
Qed.

Lemma for_loop_ext {A S : Type} (body body' : A → S → Run S)
    (items : list A) (s : S) :
  (∀ x t, body x t = body' x t) →
  for_loop body items s = for_loop body' items s.
Proof.
  intros Hbody. revert s. induction items as [|x rest IH]; intros s; [done|].
  simpl. rewrite Hbody. by apply run_bind_ext.
Qed.

Lemma subtype_field_tuple_override_name
    rt domains_list shape_field_name subtype_field_name subtype_code
    insert_explicit st_tuple st_tuple' field :
  override_name st_tuple = override_name st_tuple' →
  subtype_field_tuple rt domains_list shape_field_name subtype_field_name
    subtype_code insert_explicit st_tuple field
  = subtype_field_tuple rt domains_list shape_field_name subtype_field_name
      subtype_code insert_explicit st_tuple' field.
Proof.
  destruct st_tuple as [dflt [d|]], st_tuple' as [dflt' [d'|]];
    simpl; intros [=]; [|done].
  unfold subtype_field_tuple, subtype_domain_name. by rewrite H0.
Qed.

(** X5: of an entry of [FieldValues] the subtype loop reads only the name
    of the domain override.  The default value is never used, and the
    override is looked up in the catalog by its name: two subtypes whose
    entries agree, position by position, on the names of the overrides get
    the same model. *)
Theorem subtype_model_reads_override_names
    rt domains_list desc table_name subtype_field_name insert_explicit
    subtype_code subtype_dict subtype_dict' :
  Name subtype_dict = Name subtype_dict' →
  override_name <$> (FieldValues subtype_dict).*2
  = override_name <$> (FieldValues subtype_dict').*2 →
  subtype_model rt domains_list desc table_name subtype_field_name
    insert_explicit (subtype_code, subtype_dict)
  = subtype_model rt domains_list desc table_name subtype_field_name
      insert_explicit (subtype_code, subtype_dict').
Proof.
  intros Hname Hvalues. unfold subtype_model, st_fld_zip. rewrite Hname.
  f_equal.
  generalize (shape_params (shapeFieldName desc)).
  generalize dependent (FieldValues subtype_dict').*2.
  generalize (fields desc).
  induction ((FieldValues subtype_dict).*2) as [|st vs IH];
    intros fs [|st' vs'] [=] s; [done|].
  destruct fs as [|field fs]; [done|]. simpl.
  rewrite (subtype_field_tuple_override_name _ _ _ _ _ _ st st') by done.
  apply run_bind_ext. intros s'. by apply IH.
Qed.

Lemma subtype_model_reads_override_names_witness :
  subtype_model Examples.subtyped_rt Examples.catalog Examples.subtyped_roads
    "roads" (Some "TYPE") true (Examples.c1, Examples.subtype_A)
  = subtype_model Examples.subtyped_rt Examples.catalog
      Examples.subtyped_roads "roads" (Some "TYPE") true
      (Examples.c1, Examples.subtype_A_defaults).
Proof.
  apply (subtype_model_reads_override_names Examples.subtyped_rt
           Examples.catalog Examples.subtyped_roads "roads" (Some "TYPE") true
           Examples.c1 Examples.subtype_A Examples.subtype_A_defaults);
    reflexivity.
Defined.

(** ** Loops that store one definition per item *)

Section store_loops.

Context {A : Type} (step : A → Run (option pydantic_tuple)).
Context (fld : A → ArcpyField.t).

Local Abbreviation store_body :=
  (λ x create_model_params,
     t ← step x; mret (store (fld x) t create_model_params)).

Lemma store_loop_cons x rest s s' :
  outcome (for_loop store_body (x :: rest) s) = inr s' ↔
  ∃ t, outcome (step x) = inr t
       ∧ outcome (for_loop store_body rest (store (fld x) t s)) = inr s'.
Proof.
  simpl. rewrite bind_inr. split.
  - intros (s1 & (t & Ht & [= <-])%bind_inr & Hrest). eauto.
  - intros (t & Ht & Hrest). eexists. split; [|exact Hrest].
    apply bind_inr. eauto.
Qed.

(** A key that is no item's field name keeps its entry. *)
Lemma store_loop_other items : ∀ s s' key,
  outcome (for_loop store_body items s) = inr s' →
  key ∉ (ArcpyField.name ∘ fld) <$> items →
  s' !! key = s !! key.
Proof.
  induction items as [|x rest IH]; intros s s' key Hrun Hkey.
  - by injection Hrun as <-.
  - apply store_loop_cons in Hrun as (t & _ & Hrest).
    rewrite fmap_cons, not_elem_of_cons in Hkey. destruct Hkey as [Hx Hkey].
    rewrite (IH _ _ _ Hrest Hkey).
    destruct t as [t|]; [|done]. simpl. by rewrite lookup_insert_ne.
Qed.

(** With distinct field names, the entry of an item is the definition its
    step gave. *)
Lemma store_loop_lookup items : ∀ s s' x t,
  NoDup ((ArcpyField.name ∘ fld) <$> items) →
  outcome (for_loop store_body items s) = inr s' →
  x ∈ items →
  outcome (step x) = inr (Some t) →
  s' !! ArcpyField.name (fld x) = Some t.
Proof.
  induction items as [|y rest IH]; intros s s' x t Hnodup Hrun Hin Hstep.
  - by apply elem_of_nil in Hin.
  - rewrite fmap_cons in Hnodup. apply NoDup_cons in Hnodup as [Hy Hnodup].
    apply store_loop_cons in Hrun as (ty & Hty & Hrest).
    apply elem_of_cons in Hin as [->|Hin]; [|by eapply IH].
    rewrite Hstep in Hty. injection Hty as <-.
    erewrite store_loop_other; [|exact Hrest|exact Hy].
    apply lookup_insert_eq.
Qed.

(** The keys after the loop: those before it and the field names of the
    items whose step gave a definition. *)
Lemma store_loop_dom (enters : A → bool) items : ∀ s s',
  (∀ x t, outcome (step x) = inr t → enters x = true ↔ is_Some t) →
  outcome (for_loop store_body items s) = inr s' →
  dom s' = dom s ∪ list_to_set ((ArcpyField.name ∘ fld)
                                  <$> filter (λ x, enters x = true) items).
Proof.
  intros s s' Henters. revert s s'.
  induction items as [|x rest IH]; intros s s' Hrun.
  - injection Hrun as <-. simpl. set_solver.
  - apply store_loop_cons in Hrun as (t & Ht & Hrest).
    rewrite (IH _ _ Hrest). apply Henters in Ht.
    destruct t as [t|]; simpl.
    + rewrite filter_cons_True by by apply Ht.
      rewrite dom_insert_L. simpl. set_solver.
    + rewrite filter_cons_False; [done|].
      intros [? [=]]%Ht.
Qed.

End store_loops.

(** ** The keys and entries of a record schema *)

Lemma dom_shape_params shape_field_name :
  dom (shape_params shape_field_name) = shape_key shape_field_name.
Proof.
  destruct shape_field_name as [shape|]; simpl.
  - by rewrite dom_insert_L, dom_empty_L, (right_id_L ∅ (∪)).
  - apply dom_empty_L.
Qed.

Lemma flat_field_tuple_entered
    rt domains_list shape_field_name insert_explicit field t :
  outcome (flat_field_tuple rt domains_list shape_field_name insert_explicit
             field) = inr t →
  entered rt shape_field_name field = true ↔ is_Some t.
Proof.
  intros H. destruct t as [t|].
  - apply flat_field_tuple_Some in H as (_ & _ & Hs & He & _).
    unfold entered. rewrite Hs, He. by split.
  - unfold flat_field_tuple in H. apply bind_inr in H as (ty & _ & H).
    unfold entered.
    destruct (is_shape_field _ _ _); [by split; [|intros [? [=]]]|].
    destruct (ArcpyField.editable field); [|by split; [|intros [? [=]]]].
    simpl in H. by apply bind_inr in H as ([t'|] & _ & H).
Qed.

Lemma subtype_field_tuple_entered
    rt domains_list shape_field_name subtype_field_name subtype_code
    insert_explicit st_tuple field t :
  outcome (subtype_field_tuple rt domains_list shape_field_name
             subtype_field_name subtype_code insert_explicit st_tuple field)
  = inr t →
  entered rt shape_field_name field = true ↔ is_Some t.
Proof.
  intros H. destruct t as [t|].
  - apply subtype_field_tuple_Some in H as (_ & _ & Hs & He & _).
    unfold entered. rewrite Hs, He. by split.
  - unfold subtype_field_tuple in H. destruct st_tuple as [dflt sd].
    apply bind_inr in H as (ty & _ & H). unfold entered.
    destruct (is_shape_field _ _ _); [by split; [|intros [? [=]]]|].
    destruct (ArcpyField.editable field); [|by split; [|intros [? [=]]]].
    simpl in H. apply bind_inr in H as ([t'|] & _ & H); [done|].
    apply bind_inr in H as (d & _ & H). by destruct (decide _).
Qed.

(** The fields that [zip] reaches are the first fields of the table, as
    many as the subtype has entries. *)
Lemma zip_fields {V : Type} (vs : list V) (fs : list ArcpyField.t) :
  (zip vs fs).*2 = take (length vs) fs.
Proof.
  revert fs. induction vs as [|v vs IH]; intros [|f fs]; cbn; [done..|].
  by rewrite IH.
Qed.

Lemma zip_entered_names {V : Type} rt shape_field_name (vs : list V)
    (fs : list ArcpyField.t) :
  (ArcpyField.name ∘ snd)
    <$> filter (λ x, entered rt shape_field_name x.2 = true) (zip vs fs)
  = ArcpyField.name
      <$> filter (λ field, entered rt shape_field_name field = true)
            (take (length vs) fs).
Proof.
  revert fs. induction vs as [|v vs IH]; intros [|f fs]; [done..|].
  change (zip (v :: vs) (f :: fs)) with ((v, f) :: zip vs fs).
  change (take (length (v :: vs)) (f :: fs)) with (f :: take (length vs) fs).
  destruct (entered rt shape_field_name f) eqn:He.
  - rewrite !filter_cons_True by done. rewrite !fmap_cons. by rewrite IH.
  - rewrite !filter_cons_False by (simpl; congruence). apply IH.
Qed.

(** The subtype loop, written over the pairs of [st_fld_zip]. *)
Lemma subtype_loop_as_store_loop
    rt domains_list shape_field_name subtype_field_name subtype_code
    insert_explicit items s :
  for_loop
    (λ '(st_tuple, field) create_model_params,
       t ← subtype_field_tuple rt domains_list shape_field_name
             subtype_field_name subtype_code insert_explicit st_tuple field;
       mret (store field t create_model_params))
    items s
  = for_loop
      (λ x create_model_params,
         t ← subtype_field_tuple rt domains_list shape_field_name
               subtype_field_name subtype_code insert_explicit x.1 x.2;
         mret (store x.2 t create_model_params))
      items s.
Proof. apply for_loop_ext. by intros [st field] t. Qed.

(** X6: the keys of the record schema of a table without subtypes are
    exactly the shape field name, when the table has one, and the names of
    the editable fields that are not the shape field. *)
Theorem flat_model_keys rt domains_list desc table_name insert_explicit m :
  outcome (flat_model rt domains_list desc table_name insert_explicit)
  = inr m →
  dom (model_fields m)
  = shape_key (shapeFieldName desc)
    ∪ entered_names rt (shapeFieldName desc) (fields desc).
Proof.
  unfold flat_model. intros H.
  apply bind_inr in H as (params & Hloop & [= <-]). simpl.
  apply (store_loop_dom
           (flat_field_tuple rt domains_list (shapeFieldName desc)
              insert_explicit)
           id (entered rt (shapeFieldName desc))) in Hloop.
  - by rewrite Hloop, dom_shape_params.
  - intros field t. apply flat_field_tuple_entered.
Qed.

Lemma flat_model_keys_witness :
  ∃ m,
    outcome (flat_model Examples.flat_rt Examples.catalog Examples.flat_roads
               "roads" true) = inr m
    ∧ dom (model_fields m)
      = shape_key (Some "SHAPE")
        ∪ entered_names Examples.flat_rt (Some "SHAPE")
            (fields Examples.flat_roads).
Proof.
  eexists. split; [vm_compute; reflexivity|].
  apply (flat_model_keys Examples.flat_rt Examples.catalog Examples.flat_roads
           "roads" true).
  by vm_compute.
Defined.

(** X7: the model of a subtype has a key for the shape field, when the
    table has one, and for the editable non-shape fields among the first
    [len(FieldValues)] fields of the table only: a field beyond the entries
    of [FieldValues] is left out of the model. *)
Theorem subtype_model_keys
    rt domains_list desc table_name subtype_field_name insert_explicit
    subtype_code subtype_dict m :
  outcome (subtype_model rt domains_list desc table_name subtype_field_name
             insert_explicit (subtype_code, subtype_dict)) = inr m →
  dom (model_fields m)
  = shape_key (shapeFieldName desc)
    ∪ entered_names rt (shapeFieldName desc)
        (take (length (FieldValues subtype_dict)) (fields desc)).
Proof.
  unfold subtype_model. intros H.
  apply bind_inr in H as (params & Hloop & [= <-]). simpl.
  rewrite subtype_loop_as_store_loop in Hloop.
  apply (store_loop_dom
           (λ x, subtype_field_tuple rt domains_list (shapeFieldName desc)
                   subtype_field_name subtype_code insert_explicit x.1 x.2)
           snd (λ x, entered rt (shapeFieldName desc) x.2)) in Hloop.
  - rewrite Hloop, dom_shape_params. unfold st_fld_zip, entered_names.
    by rewrite zip_entered_names, length_fmap.
  - intros x t. apply subtype_field_tuple_entered.
Qed.

Lemma subtype_model_keys_witness :
  ∃ m,
    outcome (subtype_model Examples.subtyped_rt Examples.catalog
               Examples.subtyped_roads "roads" (Some "TYPE") true
               (Examples.c1, Examples.short_subtype)) = inr m
    ∧ model_fields m !! "STATUS" = None
    ∧ dom (model_fields m)
      = shape_key (Some "SHAPE")
        ∪ entered_names Examples.subtyped_rt (Some "SHAPE")
            [Examples.objectid; Examples.shape; Examples.road_type].
Proof.
  eexists. split; [vm_compute; reflexivity|]. split; [by vm_compute|].
  apply (subtype_model_keys Examples.subtyped_rt Examples.catalog
           Examples.subtyped_roads "roads" (Some "TYPE") true Examples.c1
           Examples.short_subtype).
  by vm_compute.
Defined.

(** X8: when the fields of a table without subtypes have distinct names,
    the entry of the record schema under a field's name is the definition
    the loop body derived for that field. *)
Theorem flat_model_lookup
    rt domains_list desc table_name insert_explicit m field t :
  NoDup (ArcpyField.name <$> fields desc) →
  outcome (flat_model rt domains_list desc table_name insert_explicit)
  = inr m →
  field ∈ fields desc →
  outcome (flat_field_tuple rt domains_list (shapeFieldName desc)
             insert_explicit field) = inr (Some t) →
  model_fields m !! ArcpyField.name field = Some t.
Proof.
  unfold flat_model. intros Hnodup H Hin Hstep.
  apply bind_inr in H as (params & Hloop & [= <-]). simpl.
  by apply (store_loop_lookup
              (flat_field_tuple rt domains_list (shapeFieldName desc)
                 insert_explicit)
              id (fields desc) _ _ field t Hnodup Hloop).
Qed.

Lemma flat_model_lookup_witness :
  ∃ m,
    outcome (flat_model Examples.flat_rt Examples.catalog Examples.flat_roads
               "roads" true) = inr m
    ∧ model_fields m !! "LANES"
      = Some (Optional (Prim int),
              Info (Field (Some lambda_None) None (Some (NInt 0))
                      (Some (NInt 100)))).
Proof.
  eexists. split; [vm_compute; reflexivity|].
  apply (flat_model_lookup Examples.flat_rt Examples.catalog
           Examples.flat_roads "roads" true _ Examples.lanes).
  - vm_compute. repeat constructor; set_solver.
  - by vm_compute.
  - right. right. right. left.
  - by vm_compute.
Defined.

(** X9: the same for the model of a subtype: with distinct field names, the
    entry under the name of a field that [zip] pairs with an entry of
    [FieldValues] is the definition the loop body derived from that pair. *)
Theorem subtype_model_lookup
    rt domains_list desc table_name subtype_field_name insert_explicit
    subtype_code subtype_dict m st_tuple field t :
  NoDup (ArcpyField.name <$> fields desc) →
  outcome (subtype_model rt domains_list desc table_name subtype_field_name
             insert_explicit (subtype_code, subtype_dict)) = inr m →
  (st_tuple, field) ∈ st_fld_zip subtype_dict desc →
  outcome (subtype_field_tuple rt domains_list (shapeFieldName desc)
             subtype_field_name subtype_code insert_explicit st_tuple field)
  = inr (Some t) →
  model_fields m !! ArcpyField.name field = Some t.
Proof.
  unfold subtype_model. intros Hnodup H Hin Hstep.
  apply bind_inr in H as (params & Hloop & [= <-]). simpl.
  rewrite subtype_loop_as_store_loop in Hloop.
  apply (store_loop_lookup
           (λ x, subtype_field_tuple rt domains_list (shapeFieldName desc)
                   subtype_field_name subtype_code insert_explicit x.1 x.2)
           snd (st_fld_zip subtype_dict desc)
           (shape_params (shapeFieldName desc)) params (st_tuple, field) t);
    [|done..].
  rewrite list_fmap_compose. unfold st_fld_zip. rewrite zip_fields.
  rewrite fmap_take. eapply sublist_NoDup; [exact Hnodup|apply sublist_take].
Qed.

Lemma subtype_model_lookup_witness :
  ∃ m,
    outcome (subtype_model Examples.subtyped_rt Examples.catalog
               Examples.subtyped_roads "roads" (Some "TYPE") true
               (Examples.c2, Examples.subtype_B)) = inr m
    ∧ model_fields m !! "TYPE" = Some (pinned_tuple Examples.c2).
Proof.
  eexists. split; [vm_compute; reflexivity|].
  apply (subtype_model_lookup Examples.subtyped_rt Examples.catalog
           Examples.subtyped_roads "roads" (Some "TYPE") true Examples.c2
           Examples.subtype_B _ (None, None) Examples.road_type).
  - vm_compute. repeat constructor; set_solver.
  - by vm_compute.
  - right. right. left.
  - by vm_compute.
Defined.

(** ** From the builders to the adapter *)

(** A property of every model the two builders can return holds of every
    record schema of the adapter. *)
Lemma make_table_adapter_models (Q : Model → Prop)
    rt table_path insert_explicit desc adapter m :
  (∀ domains_list m,
     outcome (flat_model rt domains_list desc (os_path_basename rt table_path)
                insert_explicit) = inr m → Q m) →
  (∀ domains_list subtype_field_name item m,
     outcome (subtype_model rt domains_list desc
                (os_path_basename rt table_path) subtype_field_name
                insert_explicit item) = inr m → Q m) →
  arcpy_da_Describe rt table_path = inr desc →
  outcome (make_table_adapter rt table_path insert_explicit)
  = inr (Some adapter) →
  m ∈ models_of adapter →
  Q m.
Proof.
  intros Hflat Hsub Hdesc H%make_table_adapter_Some.
  unfold make_table_adapter_try in H.
  apply bind_inr in H as (domains_list & _ & H).
  apply bind_inr in H as (desc' & Hdesc' & H).
  simpl in Hdesc'. rewrite Hdesc in Hdesc'. injection Hdesc' as <-.
  destruct (decide _).
  - apply bind_inr in H as (subtypes_dict & _ & H).
    apply bind_inr in H as (subtype_models & Hloop & H).
    apply bind_inr in H as (discriminator & _ & [= <-]). simpl.
    revert m. change (∀ m, m ∈ subtype_models → Q m). revert Hloop.
    apply (for_loop_invariant (λ ms, ∀ m, m ∈ ms → Q m));
      [|by intros m ?%elem_of_nil].
    intros item ms ms' _ Hms Hbody m.
    apply bind_inr in Hbody as (m' & Hm' & [= <-]).
    intros [?| ->%list_elem_of_singleton]%elem_of_app; [by apply Hms|].
    by eapply Hsub.
  - apply bind_inr in H as (m' & Hm' & [= <-]). simpl.
    intros ->%list_elem_of_singleton. by eapply Hflat.
Qed.

Lemma domain_tuple_not_required
    domains_list domain_name field max_length t :
  outcome (domain_tuple domains_list domain_name field false max_length)
  = inr (Some t) →
  is_required t = false.
Proof.
  intros H%domain_tuple_nullability. unfold nullability_rule in H.
  rewrite andb_false_r in H. apply H.
Qed.

Lemma type_tuple_not_required field ty max_length :
  is_required (type_tuple field ty max_length false) = false.
Proof.
  pose proof (type_tuple_nullability field ty max_length false) as H.
  unfold nullability_rule in H. rewrite andb_false_r in H. apply H.
Qed.

(** X10: with [insert_explicit=False] no record schema requires any field
    but the shape field: every other entry has a default. *)
Theorem nothing_but_shape_required_when_not_explicit
    rt table_path desc adapter m key t :
  arcpy_da_Describe rt table_path = inr desc →
  outcome (make_table_adapter rt table_path false) = inr (Some adapter) →
  m ∈ models_of adapter →
  model_fields m !! key = Some t →
  Some key ≠ shapeFieldName desc →
  is_required t = false.
Proof.
  intros Hdesc Hrun Hm Hkey Hshape.
  pose (P := λ params : gmap string pydantic_tuple,
          ∀ key t, params !! key = Some t →
                   Some key = shapeFieldName desc ∨ is_required t = false).
  assert (P (shape_params (shapeFieldName desc))) as Hinit.
  { intros key' t'. unfold shape_params.
    destruct (shapeFieldName desc) as [shape|]; [|done].
    by intros [[<- _]|[_ ?]]%lookup_insert_Some; [left|]. }
  cut (P (model_fields m)).
  { intros H. by destruct (H key t Hkey). }
  clear key t Hkey Hshape. revert Hdesc Hrun Hm.
  apply (make_table_adapter_models (λ m, P (model_fields m))).
  - intros domains_list m'. unfold flat_model. intros H.
    apply bind_inr in H as (params & Hloop & [= <-]). simpl.
    revert Hloop. apply (for_loop_invariant P); [|exact Hinit].
    intros field s s' _ Hs Hbody key t.
    apply bind_inr in Hbody as ([t'|] & Ht & [= <-]); [|apply Hs]. simpl.
    intros [[<- <-]|[_ ?]]%lookup_insert_Some; [right|by apply Hs].
    apply flat_field_tuple_Some in Ht as (ty & _ & _ & _ & [Ht|[_ ->]]).
    + by eapply domain_tuple_not_required.
    + apply type_tuple_not_required.
  - intros domains_list sfn [code sd] m'. unfold subtype_model. intros H.
    apply bind_inr in H as (params & Hloop & [= <-]). simpl.
    revert Hloop. apply (for_loop_invariant P); [|exact Hinit].
    intros [st field] s s' _ Hs Hbody key t.
    apply bind_inr in Hbody as ([t'|] & Ht & [= <-]); [|apply Hs]. simpl.
    intros [[<- <-]|[_ ?]]%lookup_insert_Some; [right|by apply Hs].
    apply subtype_field_tuple_Some in Ht as (ty & _ & _ & _ & [Ht|[_ Ht]]).
    + by eapply domain_tuple_not_required.
    + destruct Ht as (d & _ & ->). destruct (decide _); [done|].
      apply type_tuple_not_required.
Qed.

Lemma nothing_but_shape_required_when_not_explicit_witness :
  is_required (Optional (Prim str),
               Info (Field (Some lambda_None) (Some 10%Z) None None))
  = false.
Proof.
  eapply (nothing_but_shape_required_when_not_explicit Examples.flat_rt
            Examples.roads Examples.flat_roads _ _ "NAME").
  - reflexivity.
  - vm_compute. reflexivity.
  - simpl. left.
  - by vm_compute.
  - discriminate.
Defined.

(** ** The adapter *)

Lemma subtype_model_name
    rt domains_list desc table_name subtype_field_name insert_explicit item
    m :
  outcome (subtype_model rt domains_list desc table_name subtype_field_name
             insert_explicit item) = inr m →
  model_name m = table_name +:+ "-" +:+ Name item.2
  ∧ extra_forbid m = true.
Proof.
  unfold subtype_model. destruct item as [code sd]. intros H.
  by apply bind_inr in H as (params & _ & [= <-]).
Qed.

Lemma subtype_models_names
    rt domains_list desc table_name subtype_field_name insert_explicit
    subtypes_dict : ∀ ms ms',
  outcome (for_loop
             (λ item subtype_models,
                m ← subtype_model rt domains_list desc table_name
                      subtype_field_name insert_explicit item;
                mret (subtype_models ++ [m]))
             subtypes_dict ms) = inr ms' →
  model_name <$> ms'
  = (model_name <$> ms)
    ++ ((λ item, table_name +:+ "-" +:+ Name item.2) <$> subtypes_dict).
Proof.
  induction subtypes_dict as [|item rest IH]; intros ms ms' H.
  - injection H as <-. by rewrite app_nil_r.
  - simpl in H. apply bind_inr in H as (ms1 & Hitem & Hrest).
    apply bind_inr in Hitem as (m & [Hm _]%subtype_model_name & [= <-]).
    rewrite (IH _ _ Hrest), fmap_app, <-app_assoc. simpl. by rewrite Hm.
Qed.

(** X11: what [make_table_adapter] returns.  For a table without subtypes
    it is the adapter of one model, named after the base name of the path;
    for a table with subtypes it is a union with one model per subtype, in
    the order of the subtype table, each named [<table>-<subtype name>],
    discriminated by the field the search loop found.  Every model forbids
    extra fields. *)
Theorem adapter_form rt table_path insert_explicit desc adapter :
  arcpy_da_Describe rt table_path = inr desc →
  outcome (make_table_adapter rt table_path insert_explicit)
  = inr (Some adapter) →
  (∀ m, m ∈ models_of adapter → extra_forbid m = true)
  ∧ if decide (subtypeFieldName desc = "")
    then ∃ m, adapter = AdapterOfModel m
              ∧ model_name m = os_path_basename rt table_path
    else ∃ subtype_models discriminator subtypes_dict,
           adapter = AdapterOfUnion subtype_models discriminator
           ∧ arcpy_da_ListSubtypes rt table_path = inr subtypes_dict
           ∧ model_name <$> subtype_models
             = (λ item, os_path_basename rt table_path +:+ "-"
                        +:+ Name item.2) <$> subtypes_dict
           ∧ find_subtype_field rt (ArcpyField.name <$> fields desc)
               (subtypeFieldName desc) = Some discriminator.
Proof.
  intros Hdesc Hrun. split.
  - intros m. revert Hdesc Hrun.
    apply (make_table_adapter_models (λ m, extra_forbid m = true)).
    + intros domains_list m'. unfold flat_model. intros H.
      by apply bind_inr in H as (params & _ & [= <-]).
    + intros domains_list sfn item m' H.
      by apply subtype_model_name in H as [_ ?].
  - apply make_table_adapter_Some in Hrun. unfold make_table_adapter_try in Hrun.
    apply bind_inr in Hrun as (domains_list & _ & H).
    apply bind_inr in H as (desc' & Hdesc' & H).
    simpl in Hdesc'. rewrite Hdesc in Hdesc'. injection Hdesc' as <-.
    destruct (decide (subtypeFieldName desc ≠ "")) as [Hsub|Hflat].
    + rewrite decide_False by done.
      apply bind_inr in H as (subtypes_dict & Hsts & H).
      apply bind_inr in H as (subtype_models & Hloop & H).
      apply bind_inr in H as (discriminator & Hd & [= <-]).
      exists subtype_models, discriminator, subtypes_dict.
      split_and!; [done|exact Hsts| |].
      * by rewrite (subtype_models_names _ _ _ _ _ _ _ _ _ Hloop).
      * destruct (find_subtype_field _ _ _); simpl in Hd; [|done].
        by injection Hd as ->.
    + rewrite decide_True by by destruct (decide (subtypeFieldName desc = "")).
      apply bind_inr in H as (m & Hm & [= <-]). exists m. split; [done|].
      unfold flat_model in Hm.
      by apply bind_inr in Hm as (params & _ & [= <-]).
Qed.

Lemma adapter_form_witness :
  ∃ adapter,
    outcome (make_table_adapter Examples.subtyped_rt Examples.roads true)
    = inr (Some adapter)
    ∧ ∃ subtype_models discriminator subtypes_dict,
        adapter = AdapterOfUnion subtype_models discriminator
        ∧ arcpy_da_ListSubtypes Examples.subtyped_rt Examples.roads
          = inr subtypes_dict
        ∧ model_name <$> subtype_models
          = (λ item, Examples.basename Examples.roads +:+ "-"
                     +:+ Name item.2) <$> subtypes_dict
        ∧ find_subtype_field Examples.subtyped_rt
            (ArcpyField.name <$> fields Examples.subtyped_roads) "type"
          = Some discriminator.
Proof.
  eexists. split; [vm_compute; reflexivity|].
  apply (proj2 (adapter_form Examples.subtyped_rt Examples.roads true
                  Examples.subtyped_roads _ eq_refl
                  ltac:(vm_compute; reflexivity))).
Defined.

(** ** The discriminator field name *)

Lemma find_subtype_field_skip rt earlier rest subtypeFieldName :
  (∀ n, n ∈ earlier → casefold rt n ≠ casefold rt subtypeFieldName) →
  find_subtype_field rt (earlier ++ rest) subtypeFieldName
  = find_subtype_field rt rest subtypeFieldName.
Proof.
  induction earlier as [|a earlier IH]; intros Hne; [done|]. simpl.
  rewrite decide_False by (apply Hne; left).
  apply IH. intros n Hn. apply Hne. by right.
Qed.

Lemma find_subtype_field_None rt names subtypeFieldName :
  find_subtype_field rt names subtypeFieldName = None
  ↔ ∀ n, n ∈ names → casefold rt n ≠ casefold rt subtypeFieldName.
Proof.
  induction names as [|a l IH]; simpl.
  - split; [by intros _ n ?%elem_of_nil|done].
  - destruct (decide _) as [Ha|Ha].
    + split; [done|]. intros H. exfalso. by apply (H a); [left|].
    + rewrite IH. split.
      * by intros H n [->|?]%elem_of_cons; [|apply H].
      * intros H n Hn. apply H. by right.
Qed.

(** X12: the name bound to [subtype_field_name] is the first field name of
    the table that equals [desc["subtypeFieldName"]] up to case, in the
    spelling of the field; the variable stays unassigned exactly when no
    field name matches. *)
Theorem find_subtype_field_first_match rt names subtypeFieldName :
  (∀ field_name,
     find_subtype_field rt names subtypeFieldName = Some field_name
     ↔ ∃ earlier later,
         names = earlier ++ field_name :: later
         ∧ casefold rt field_name = casefold rt subtypeFieldName
         ∧ ∀ n, n ∈ earlier → casefold rt n ≠ casefold rt subtypeFieldName)
  ∧ (find_subtype_field rt names subtypeFieldName = None
     ↔ ∀ n, n ∈ names → casefold rt n ≠ casefold rt subtypeFieldName).
Proof.
  split; [|apply find_subtype_field_None].
  intros field_name. split.
  - induction names as [|a l IH]; [done|]. simpl.
    destruct (decide _) as [Ha|Ha].
    + intros [= <-]. exists [], l. split_and!; [done..|].
      by intros n ?%elem_of_nil.
    + intros (earlier & later & -> & Hname & Hne)%IH.
      exists (a :: earlier), later. split_and!; [done..|].
      by intros n [->|?]%elem_of_cons; [|apply Hne].
  - intros (earlier & later & -> & Hname & Hne).
    rewrite find_subtype_field_skip by done. simpl. by rewrite decide_True.
Qed.

(** X13: when the table has a subtype field name that matches none of its
    field names, even up to case, the synthesis cannot succeed:
    [make_table_adapter] logs an exception and returns [None]. *)
Theorem unmatched_subtype_field_returns_None
    rt table_path insert_explicit desc :
  arcpy_da_Describe rt table_path = inr desc →
  subtypeFieldName desc ≠ "" →
  (∀ field, field ∈ fields desc →
     casefold rt (ArcpyField.name field)
     ≠ casefold rt (subtypeFieldName desc)) →
  ∃ ex,
    outcome (make_table_adapter_try rt table_path insert_explicit) = inl ex
    ∧ returns (make_table_adapter rt table_path insert_explicit) None
        (logged (make_table_adapter_try rt table_path insert_explicit)
         ++ [LogError ex]).
Proof.
  intros Hdesc Hsub Hnames.
  cut (∃ ex, outcome (make_table_adapter_try rt table_path insert_explicit)
             = inl ex).
  { intros [ex Hex]. exists ex. split; [done|].
    by apply make_table_adapter_handler. }
  assert (find_subtype_field rt (ArcpyField.name <$> fields desc)
            (subtypeFieldName desc) = None) as Hfind.
  { apply find_subtype_field_None.
    intros n (field & -> & Hin)%list_elem_of_fmap. by apply Hnames. }
  unfold make_table_adapter_try. rewrite outcome_bind. simpl.
  destruct (arcpy_da_ListDomains rt _) as [ex|domains_list]; [eauto|].
  rewrite outcome_bind. simpl. rewrite Hdesc, decide_True by done.
  rewrite outcome_bind. simpl.
  destruct (arcpy_da_ListSubtypes rt _) as [ex|subtypes_dict]; [eauto|].
  rewrite outcome_bind.
  destruct (outcome (for_loop _ _ _)) as [ex|subtype_models]; [eauto|].
  rewrite Hfind, outcome_bind. simpl. eauto.
Qed.

Lemma unmatched_subtype_field_returns_None_witness :
  ∃ ex,
    outcome (make_table_adapter_try Examples.orphan_rt Examples.roads true)
    = inl ex
    ∧ returns (make_table_adapter Examples.orphan_rt Examples.roads true) None
        (logged (make_table_adapter_try Examples.orphan_rt Examples.roads
                   true)
         ++ [LogError ex]).
Proof.
  apply (unmatched_subtype_field_returns_None Examples.orphan_rt
           Examples.roads true Examples.orphan_roads).
  - reflexivity.
  - discriminate.
  - intros field Hin. vm_compute in Hin.
    repeat (apply elem_of_cons in Hin as [->|Hin]; [by vm_compute|]).
    by apply elem_of_nil in Hin.
Defined.

(** ** The log *)

Lemma logged_bind_Forall {A B : Type} (Q : LogRecord → Prop) (m : Run A)
    (f : A → Run B) :
  Forall Q (logged m) → (∀ a, Forall Q (logged (f a))) →
  Forall Q (logged (m ≫= f)).
Proof.
  intros Hm Hf. rewrite logged_bind. destruct (outcome m); [done|].
  by apply Forall_app_2.
Qed.

Lemma for_loop_logged {A S : Type} (Q : LogRecord → Prop)
    (body : A → S → Run S) (items : list A) :
  (∀ x s, Forall Q (logged (body x s))) →
  ∀ s, Forall Q (logged (for_loop body items s)).
Proof.
  intros Hbody. induction items as [|x rest IH]; intros s; simpl.
  - constructor.
  - by apply logged_bind_Forall.
Qed.

Lemma getitem_logged {V : Type} (d : gmap string V) key :
  logged (getitem d key) = [].
Proof. unfold getitem. by destruct (d !! key). Qed.

Lemma make_domain_tuple_logged
    domains_list domain_name nullable insert_explicit max_length :
  Forall (missing_domain_warning domains_list)
    (logged (make_domain_tuple domains_list domain_name nullable
               insert_explicit max_length)).
Proof.
  unfold make_domain_tuple.
  destruct (find_domain _ _) as [d|] eqn:Hfind.
  - destruct (decide _).
    + destruct (Domain.codedValues d); [|constructor].
      destruct (decide _); [constructor|].
      destruct (negb nullable && insert_explicit), max_length; constructor.
    + destruct (Domain.range d) as [min_val max_val].
      apply logged_bind_Forall; [by rewrite getitem_logged|].
      intros ty. destruct (negb nullable && insert_explicit); constructor.
  - repeat constructor. by exists domain_name.
Qed.

Lemma domain_tuple_logged
    domains_list domain_name field insert_explicit max_length :
  Forall (missing_domain_warning domains_list)
    (logged (domain_tuple domains_list domain_name field insert_explicit
               max_length)).
Proof.
  destruct domain_name; [apply make_domain_tuple_logged|constructor].
Qed.

Lemma flat_field_tuple_logged
    rt domains_list shape_field_name insert_explicit field :
  Forall (missing_domain_warning domains_list)
    (logged (flat_field_tuple rt domains_list shape_field_name
               insert_explicit field)).
Proof.
  unfold flat_field_tuple.
  apply logged_bind_Forall; [by rewrite getitem_logged|]. intros ty.
  destruct (is_shape_field _ _ _); [constructor|].
  destruct (negb _); [constructor|].
  apply logged_bind_Forall; [apply domain_tuple_logged|].
  intros [t|]; constructor.
Qed.

Lemma subtype_field_tuple_logged
    rt domains_list shape_field_name subtype_field_name subtype_code
    insert_explicit st_tuple field :
  Forall (missing_domain_warning domains_list)
    (logged (subtype_field_tuple rt domains_list shape_field_name
               subtype_field_name subtype_code insert_explicit st_tuple
               field)).
Proof.
  unfold subtype_field_tuple. destruct st_tuple as [dflt sd].
  apply logged_bind_Forall; [by rewrite getitem_logged|]. intros ty.
  destruct (is_shape_field _ _ _); [constructor|].
  destruct (negb _); [constructor|].
  apply logged_bind_Forall; [apply domain_tuple_logged|].
  intros [t|]; [constructor|].
  apply logged_bind_Forall; [by destruct subtype_field_name|].
  intros d. destruct (decide _); constructor.
Qed.

Lemma flat_model_logged rt domains_list desc table_name insert_explicit :
  Forall (missing_domain_warning domains_list)
    (logged (flat_model rt domains_list desc table_name insert_explicit)).
Proof.
  unfold flat_model. apply logged_bind_Forall; [|constructor].
  apply for_loop_logged. intros field s.
  apply logged_bind_Forall; [apply flat_field_tuple_logged|constructor].
Qed.

Lemma subtype_model_logged
    rt domains_list desc table_name subtype_field_name insert_explicit item :
  Forall (missing_domain_warning domains_list)
    (logged (subtype_model rt domains_list desc table_name subtype_field_name
               insert_explicit item)).
Proof.
  unfold subtype_model. destruct item as [code sd].
  apply logged_bind_Forall; [|constructor].
  apply for_loop_logged. intros [st field] s.
  apply logged_bind_Forall; [apply subtype_field_tuple_logged|constructor].
Qed.

(** X14: what [make_table_adapter] logs.  The [try] block logs nothing but
    the warnings of [make_domain_tuple], each about a name that the catalog
    read by [ListDomains] does not have, and nothing at all when
    [ListDomains] fails; the handler adds one error record, the last of the
    log, exactly when the block raised. *)
Theorem make_table_adapter_log rt table_path insert_explicit :
  let block := make_table_adapter_try rt table_path insert_explicit in
  logged (make_table_adapter rt table_path insert_explicit)
  = logged block
    ++ match outcome block with
       | inl ex => [LogError ex]
       | inr _ => []
       end
  ∧ match arcpy_da_ListDomains rt (os_path_dirname rt table_path) with
    | inr domains_list =>
        Forall (missing_domain_warning domains_list) (logged block)
    | inl _ => logged block = []
    end.
Proof.
  intros block. split.
  - unfold make_table_adapter. fold block.
    destruct (outcome block); simpl; [done|by rewrite app_nil_r].
  - subst block. unfold make_table_adapter_try. rewrite logged_bind. simpl.
    destruct (arcpy_da_ListDomains rt _) as [ex|domains_list]; [done|].
    simpl. rewrite logged_bind. simpl.
    destruct (arcpy_da_Describe rt _) as [ex|desc]; [constructor|]. simpl.
    destruct (decide _).
    + apply logged_bind_Forall; [constructor|]. intros subtypes_dict.
      apply logged_bind_Forall.
      * apply for_loop_logged. intros item ms.
        apply logged_bind_Forall; [apply subtype_model_logged|constructor].
      * intros ms. apply logged_bind_Forall; [|constructor].
        destruct (find_subtype_field _ _ _); constructor.
    + apply logged_bind_Forall; [apply flat_model_logged|constructor].
Qed.

(** ** What the reads decide *)

(** X15: for a table without subtypes [arcpy.da.ListSubtypes] is not
    called: whatever it would return or raise, the result and the log of
    [make_table_adapter] are the same. *)
Theorem flat_table_ignores_ListSubtypes
    rt other_ListSubtypes table_path insert_explicit desc :
  arcpy_da_Describe rt table_path = inr desc →
  subtypeFieldName desc = "" →
  make_table_adapter (with_ListSubtypes rt other_ListSubtypes) table_path
    insert_explicit
  = make_table_adapter rt table_path insert_explicit.
Proof.
  intros Hdesc Hflat.
  cut (make_table_adapter_try (with_ListSubtypes rt other_ListSubtypes)
         table_path insert_explicit
       = make_table_adapter_try rt table_path insert_explicit).
  { intros H. unfold make_table_adapter. by rewrite H. }
  unfold make_table_adapter_try. simpl.
  apply run_bind_ext. intros domains_list.
  rewrite Hdesc. unfold call, mbind, run_mbind, run_bind. simpl.
  by rewrite !decide_False by (intros H; by apply H).
Qed.

Lemma flat_table_ignores_ListSubtypes_witness :
  make_table_adapter
    (with_ListSubtypes Examples.flat_rt
       (λ _, inl (ExternalError "no subtypes here")))
    Examples.roads true
  = make_table_adapter Examples.flat_rt Examples.roads true.
Proof.
  apply (flat_table_ignores_ListSubtypes Examples.flat_rt
           (λ _, inl (ExternalError "no subtypes here")) Examples.roads true
           Examples.flat_roads);
    reflexivity.
Defined.

(** X16: the order of the reads.  [ListDomains] is called first, on the
    directory of the path; [Describe] next, on the path; [ListSubtypes] last
    and only for a table with a subtype field.  The first of them that
    raises ends the synthesis: [make_table_adapter] returns [None] and its
    log is that one exception. *)
Theorem first_failing_read_is_logged rt table_path insert_explicit ex :
  let failed := MkRun (inr None) [LogError ex] in
  (arcpy_da_ListDomains rt (os_path_dirname rt table_path) = inl ex →
   make_table_adapter rt table_path insert_explicit = failed)
  ∧ (∀ domains_list,
       arcpy_da_ListDomains rt (os_path_dirname rt table_path)
       = inr domains_list →
       arcpy_da_Describe rt table_path = inl ex →
       make_table_adapter rt table_path insert_explicit = failed)
  ∧ (∀ domains_list desc,
       arcpy_da_ListDomains rt (os_path_dirname rt table_path)
       = inr domains_list →
       arcpy_da_Describe rt table_path = inr desc →
       subtypeFieldName desc ≠ "" →
       arcpy_da_ListSubtypes rt table_path = inl ex →
       make_table_adapter rt table_path insert_explicit = failed).
Proof.
  intros failed. unfold make_table_adapter, make_table_adapter_try.
  split; [|split].
  - intros Hdomains. by rewrite Hdomains.
  - intros domains_list Hdomains Hdesc. by rewrite Hdomains, Hdesc.
  - intros domains_list desc Hdomains Hdesc Hsub Hsubtypes.
    rewrite Hdomains. unfold call, mbind, run_mbind, run_bind. simpl.
    rewrite Hdesc. simpl. rewrite decide_True by done. simpl.
    by rewrite Hsubtypes.
Qed.

Lemma first_failing_read_is_logged_witness :
  make_table_adapter Examples.unreadable_rt Examples.roads false
  = MkRun (inr None) [LogError (ExternalError "cannot open table")].
Proof.
  apply (proj1 (proj2 (first_failing_read_is_logged Examples.unreadable_rt
                         Examples.roads false
                         (ExternalError "cannot open table")))
           Examples.catalog);
    reflexivity.
Defined.

(** ** Numeric bounds *)

(** X17: the static bounds come in pairs, and only a field whose pydantic
    type is [int] or [float] gets them: the definition derived from the type
    of a field never puts [ge] or [le] on a string, a date, a UUID or
    bytes. *)
Theorem static_bounds_are_numeric field ty max_length insert_explicit :
  field_type_to_pydantic_dict !! ArcpyField.type field = Some ty →
  bounds_of (type_tuple field ty max_length insert_explicit) ≠ (None, None) →
  (ty = int ∨ ty = float)
  ∧ ∃ ge le,
      bounds_of (type_tuple field ty max_length insert_explicit)
      = (Some ge, Some le).
Proof.
  rewrite type_tuple_bounds. unfold static_bounds.
  generalize (ArcpyField.type field). intros type Hty.
  destruct (field_type_min_max !! type) as [[ge le]|] eqn:Hbounds; [|done].
  intros _. split; [|eauto].
  apply elem_of_list_to_map_2 in Hbounds.
  repeat (apply elem_of_cons in Hbounds as [[= -> _ _]|Hbounds];
          [vm_compute in Hty;
           first [discriminate|injection Hty as <-; auto]|]).
  by apply elem_of_nil in Hbounds.
Qed.

Lemma static_bounds_are_numeric_witness :
  (int = int ∨ int = float)
  ∧ ∃ ge le,
      bounds_of (type_tuple Examples.lanes int None true)
      = (Some ge, Some le).
Proof.
  apply (static_bounds_are_numeric Examples.lanes int None true).
  - by vm_compute.
  - by vm_compute.
Defined.

(** ** The two loops side by side *)

(** X18: for a field that is not the discriminator, an entry of
    [FieldValues] without a domain override makes the subtype loop do what
    the loop of a table without subtypes does: same definition, same
    exception, same log. *)
Theorem subtype_without_override_as_flat
    rt domains_list shape_field_name discriminator subtype_code
    insert_explicit subtype_default field :
  ArcpyField.name field ≠ discriminator →
  subtype_field_tuple rt domains_list shape_field_name (Some discriminator)
    subtype_code insert_explicit (subtype_default, None) field
  = flat_field_tuple rt domains_list shape_field_name insert_explicit field.
Proof.
  intros Hname. unfold subtype_field_tuple, flat_field_tuple.
  apply run_bind_ext. intros ty.
  destruct (is_shape_field _ _ _); [done|].
  destruct (negb _); [done|].
  apply run_bind_ext. intros [t|]; [done|].
  unfold read_local, mbind, run_mbind, run_bind. simpl.
  by rewrite decide_False.
Qed.

Lemma subtype_without_override_as_flat_witness :
  subtype_field_tuple Examples.subtyped_rt Examples.catalog (Some "SHAPE")
    (Some "TYPE") Examples.c1 true (Some Examples.c2, None) Examples.status
  = flat_field_tuple Examples.subtyped_rt Examples.catalog (Some "SHAPE") true
      Examples.status.
Proof.
  apply (subtype_without_override_as_flat Examples.subtyped_rt
           Examples.catalog (Some "SHAPE") "TYPE" Examples.c1 true
           (Some Examples.c2) Examples.status).
  discriminate.
Defined.

(** ** Requiredness in the finished schema *)

(** A loop that ends normally ran its body normally on every item. *)
Lemma for_loop_steps {A S : Type} (body : A → S → Run S) (items : list A)
    (x : A) : ∀ s s',
  outcome (for_loop body items s) = inr s' →
  x ∈ items →
  ∃ s1 s2, outcome (body x s1) = inr s2.
Proof.
  induction items as [|y rest IH]; intros s s' Hrun Hin.
  - by apply elem_of_nil in Hin.
  - simpl in Hrun. apply bind_inr in Hrun as (s1 & Hy & Hrest).
    apply elem_of_cons in Hin as [->|Hin]; [eauto|by eapply IH].
Qed.

Lemma nullability_rule_bool nullable insert_explicit t :
  nullability_rule nullable insert_explicit t →
  is_required t = negb nullable && insert_explicit
  ∧ accepts_None t.1 = negb (negb nullable && insert_explicit).
Proof.
  unfold nullability_rule.
  by destruct (negb nullable && insert_explicit); intros (-> & -> & _).
Qed.

Lemma flat_field_tuple_nullability
    rt domains_list shape_field_name insert_explicit field t :
  outcome (flat_field_tuple rt domains_list shape_field_name insert_explicit
             field) = inr (Some t) →
  nullability_rule (ArcpyField.isNullable field) insert_explicit t.
Proof.
  intros H. apply flat_field_tuple_Some in H as (ty & _ & _ & _ & [H|[_ ->]]).
  - by apply domain_tuple_nullability in H.
  - apply type_tuple_nullability.
Qed.

(** X19: in the record schema of a table without subtypes whose field names
    are distinct, every editable field that is not the shape field has an
    entry, and the entry is required, and rejects [None], exactly when the
    field is not nullable and [insert_explicit] holds. *)
Theorem flat_model_requires_non_nullable
    rt domains_list desc table_name insert_explicit m field :
  NoDup (ArcpyField.name <$> fields desc) →
  outcome (flat_model rt domains_list desc table_name insert_explicit)
  = inr m →
  field ∈ fields desc →
  entered rt (shapeFieldName desc) field = true →
  ∃ t,
    model_fields m !! ArcpyField.name field = Some t
    ∧ is_required t = negb (ArcpyField.isNullable field) && insert_explicit
    ∧ accepts_None t.1
      = negb (negb (ArcpyField.isNullable field) && insert_explicit).
Proof.
  intros Hnodup Hm Hin Hentered.
  assert (∃ t, outcome (flat_field_tuple rt domains_list (shapeFieldName desc)
                          insert_explicit field) = inr (Some t)) as [t Ht].
  { pose proof Hm as H. unfold flat_model in H.
    apply bind_inr in H as (params & Hloop & _).
    destruct (for_loop_steps _ _ field _ _ Hloop Hin) as (s1 & s2 & Hbody).
    apply bind_inr in Hbody as (t & Ht & _).
    destruct (proj1 (flat_field_tuple_entered _ _ _ _ _ _ Ht) Hentered)
      as [t' ->].
    eauto. }
  exists t. split.
  - unfold flat_model in Hm.
    apply bind_inr in Hm as (params & Hloop & [= <-]). simpl.
    by apply (store_loop_lookup
                (flat_field_tuple rt domains_list (shapeFieldName desc)
                   insert_explicit)
                id (fields desc) _ _ field t Hnodup Hloop).
  - by apply flat_field_tuple_nullability, nullability_rule_bool in Ht.
Qed.

Lemma flat_model_requires_non_nullable_witness :
  ∃ m,
    outcome (flat_model Examples.flat_rt Examples.catalog Examples.flat_roads
               "roads" true) = inr m
    ∧ ∃ t, model_fields m !! "NAME" = Some t
           ∧ is_required t = true
           ∧ accepts_None t.1 = false.
Proof.
  eexists. split; [vm_compute; reflexivity|].
  apply (flat_model_requires_non_nullable Examples.flat_rt Examples.catalog
           Examples.flat_roads "roads" true _ Examples.road_name).
  - vm_compute. repeat constructor; set_solver.
  - by vm_compute.
  - right. right. left.
  - by vm_compute.
Defined.

(** ** The discriminator in the model of a subtype *)

(** X20: in the model of a subtype of a table with distinct field names,
    when the discriminator field is editable, is not the shape field, is
    reached by [zip] and gets no definition from a domain, its entry is the
    literal of that subtype's own code. *)
Theorem subtype_model_pins_code
    rt domains_list desc table_name discriminator insert_explicit
    subtype_code subtype_dict m st_tuple field :
  NoDup (ArcpyField.name <$> fields desc) →
  outcome (subtype_model rt domains_list desc table_name (Some discriminator)
             insert_explicit (subtype_code, subtype_dict)) = inr m →
  (st_tuple, field) ∈ st_fld_zip subtype_dict desc →
  ArcpyField.name field = discriminator →
  entered rt (shapeFieldName desc) field = true →
  outcome (domain_tuple domains_list (subtype_domain_name st_tuple.2 field)
             field insert_explicit (max_length_for field)) = inr None →
  model_fields m !! discriminator = Some (pinned_tuple subtype_code).
Proof.
  intros Hnodup Hm Hin Hname Hentered Hdom. unfold subtype_model in Hm.
  apply bind_inr in Hm as (params & Hloop & [= <-]). simpl.
  rewrite subtype_loop_as_store_loop in Hloop.
  destruct (for_loop_steps _ _ (st_tuple, field) _ _ Hloop Hin)
    as (s1 & s2 & Hbody).
  apply bind_inr in Hbody as (t & Ht & _). simpl in Ht.
  destruct (proj1 (subtype_field_tuple_entered _ _ _ _ _ _ _ _ _ Ht) Hentered)
    as [t' ->].
  pose proof Ht as Hpinned.
  apply subtype_field_tuple_Some in Hpinned
    as (ty & _ & _ & _ & [H|(_ & d & [= <-] & ->)]); [congruence|].
  rewrite decide_True in Ht by done. rewrite <-Hname.
  apply (store_loop_lookup
           (λ x, subtype_field_tuple rt domains_list (shapeFieldName desc)
                   (Some (ArcpyField.name field)) subtype_code insert_explicit
                   x.1 x.2)
           snd (st_fld_zip subtype_dict desc)
           (shape_params (shapeFieldName desc)) params (st_tuple, field));
    [|by rewrite Hname|done|by rewrite Hname].
  rewrite list_fmap_compose. unfold st_fld_zip. rewrite zip_fields.
  rewrite fmap_take. eapply sublist_NoDup; [exact Hnodup|apply sublist_take].
Qed.

Lemma subtype_model_pins_code_witness :
  ∃ m,
    outcome (subtype_model Examples.subtyped_rt Examples.catalog
               Examples.subtyped_roads "roads" (Some "TYPE") false
               (Examples.c2, Examples.subtype_B)) = inr m
    ∧ model_fields m !! "TYPE" = Some (pinned_tuple Examples.c2).
Proof.
  eexists. split; [vm_compute; reflexivity|].
  apply (subtype_model_pins_code Examples.subtyped_rt Examples.catalog
           Examples.subtyped_roads "roads" "TYPE" false Examples.c2
           Examples.subtype_B _ (None, None) Examples.road_type).
  - vm_compute. repeat constructor; set_solver.
  - by vm_compute.
  - right. right. left.
  - reflexivity.
  - by vm_compute.
  - by vm_compute.
Defined.

(** ** Which entry goes to which field *)

(** C10: the loop of a subtype pairs the [i]-th value of [FieldValues]
    with the [i]-th field of the table, up to the shorter of the two
    sequences, and the keys of [FieldValues] play no part: renaming them all
    leaves the model of the subtype unchanged.  The pairing is what the
    builder applies: in the model of a subtype of a table with distinct
    field names, the loop body ran on the [i]-th value together with the
    [i]-th field, the definition it gave is the entry under that field's
    name, and a field beyond the values of [FieldValues] has no entry
    (unless it bears the shape field's name). *)
Theorem st_fld_zip_positional subtype_dict desc :
  (∀ i st_tuple field,
     st_fld_zip subtype_dict desc !! i = Some (st_tuple, field)
     ↔ (FieldValues subtype_dict).*2 !! i = Some st_tuple
       ∧ fields desc !! i = Some field)
  ∧ length (st_fld_zip subtype_dict desc)
    = length (FieldValues subtype_dict) `min` length (fields desc)
  ∧ (∀ rt domains_list table_name subtype_field_name insert_explicit
       subtype_code (rename : string → string),
       subtype_model rt domains_list desc table_name subtype_field_name
         insert_explicit
         (subtype_code,
          {| Name := Name subtype_dict;
             FieldValues := prod_map rename id <$> FieldValues subtype_dict |})
       = subtype_model rt domains_list desc table_name subtype_field_name
           insert_explicit (subtype_code, subtype_dict))
  ∧ (∀ rt domains_list table_name subtype_field_name insert_explicit
       subtype_code m,
       NoDup (ArcpyField.name <$> fields desc) →
       outcome (subtype_model rt domains_list desc table_name
                  subtype_field_name insert_explicit
                  (subtype_code, subtype_dict)) = inr m →
       (∀ i st_tuple field,
          (FieldValues subtype_dict).*2 !! i = Some st_tuple →
          fields desc !! i = Some field →
          ∃ r,
            outcome (subtype_field_tuple rt domains_list (shapeFieldName desc)
                       subtype_field_name subtype_code insert_explicit
                       st_tuple field) = inr r
            ∧ ∀ t, r = Some t →
                   model_fields m !! ArcpyField.name field = Some t)
       ∧ (∀ i field,
            fields desc !! i = Some field →
            (length (FieldValues subtype_dict) ≤ i)%nat →
            Some (ArcpyField.name field) ≠ shapeFieldName desc →
            model_fields m !! ArcpyField.name field = None)).
Proof.
  split; [|split; [|split]].
  - intros i st_tuple field. unfold st_fld_zip. rewrite lookup_zip_with.
    destruct ((FieldValues subtype_dict).*2 !! i) as [st|],
      (fields desc !! i) as [f|]; simpl;
      (split; [intros [= <- <-] || discriminate|intros [? ?]; congruence]).
    done.
  - unfold st_fld_zip. by rewrite length_zip_with, length_fmap.
  - intros. unfold subtype_model, st_fld_zip. simpl.
    by rewrite fmap_rename_values.
  - intros rt domains_list table_name sfn strict code m Hnodup Hm.
    unfold subtype_model in Hm.
    apply bind_inr in Hm as (params & Hloop & [= <-]). simpl.
    rewrite subtype_loop_as_store_loop in Hloop.
    assert ((ArcpyField.name ∘ snd) <$> st_fld_zip subtype_dict desc
            = take (length (FieldValues subtype_dict))
                (ArcpyField.name <$> fields desc)) as Hnames.
    { rewrite list_fmap_compose. unfold st_fld_zip.
      by rewrite zip_fields, fmap_take, length_fmap. }
    split.
    + intros i st field Hst Hfield.
      assert ((st, field) ∈ st_fld_zip subtype_dict desc) as Hin.
      { apply (list_elem_of_lookup_2 _ i). unfold st_fld_zip.
        by rewrite lookup_zip_with, Hst, Hfield. }
      destruct (for_loop_steps _ _ (st, field) _ _ Hloop Hin)
        as (s1 & s2 & Hbody).
      apply bind_inr in Hbody as (r & Hr & _). simpl in Hr.
      exists r. split; [done|]. intros t ->.
      apply (store_loop_lookup
               (λ x, subtype_field_tuple rt domains_list (shapeFieldName desc)
                       sfn code strict x.1 x.2)
               snd (st_fld_zip subtype_dict desc)
               (shape_params (shapeFieldName desc)) params (st, field) t);
        [|done..].
      rewrite Hnames. eapply sublist_NoDup; [exact Hnodup|apply sublist_take].
    + intros i field Hfield Hlen Hshape.
      erewrite store_loop_other; [|exact Hloop|].
      * unfold shape_params.
        destruct (shapeFieldName desc) as [shape|]; [|done].
        rewrite lookup_insert_ne; [done|]. by intros ->.
      * rewrite Hnames. intros (j & Hj)%list_elem_of_lookup_1.
        apply lookup_take_Some in Hj as [Hj Hlt].
        assert ((ArcpyField.name <$> fields desc) !! i
                = Some (ArcpyField.name field)) as Hi.
        { by rewrite list_lookup_fmap, Hfield. }
        pose proof (NoDup_lookup _ _ _ _ Hnodup Hj Hi). lia.
Qed.

(** The entries of [swapped_subtype] are keyed ["TYPE"], ["NAME"],
    ["LANES"], the fields of the table come as [TYPE], [LANES], [NAME]: the
    override keyed ["NAME"] is the second value, so it constrains the second
    field, [LANES]. *)
Lemma st_fld_zip_positional_witness :
  ∃ m,
    outcome (subtype_model Examples.subtyped_rt Examples.catalog
               Examples.swapped_roads "roads" (Some "TYPE") true
               (Examples.c1, Examples.swapped_subtype)) = inr m
    ∧ model_fields m !! "LANES"
      = Some (Optional (Literal [Examples.c1; Examples.c2]),
              Info (Field (Some lambda_None) None None None)).
Proof.
  eexists. split; [vm_compute; reflexivity|].
  destruct (proj1 (proj2 (proj2 (proj2
              (st_fld_zip_positional Examples.swapped_subtype
                 Examples.swapped_roads)))
              Examples.subtyped_rt Examples.catalog "roads" (Some "TYPE") true
              Examples.c1 _
              ltac:(vm_compute; repeat constructor; set_solver)
              ltac:(vm_compute; reflexivity))
            1 (None, Some Examples.status_codes) Examples.lanes
            eq_refl eq_refl) as (r & Hr & Hentry).
  vm_compute in Hr. injection Hr as <-. by apply Hentry.
Defined.
